(** * ROI calculator: projection and metrics engine

    A shallow embedding of the helper functions of the calculator
    controller ([generateDynamicMonthlyData], [getGrowthFactors],
    [getSeasonalMultiplier], [calculateDynamicPaybackPeriod],
    [generateRevenueCostChartData], [generateRoiGrowthChartData],
    [generatePerformanceMetrics]) and the properties of them that the
    specification states.

    Numbers.  The functions are embedded twice.

    - In module [JS] a number is [num]: an exact rational, the two
      infinities, or NaN.  Every finite operation is exact and the two
      zeros are identified; division by zero, NaN propagation and
      truthiness are those of the language.  This embedding carries the
      properties that do not depend on rounding: the shape of the series,
      the draws, the lookups, the scan of the payback period, the
      down-sampling of the charts, the guards of the metrics.
    - In module [B64] a number is an IEEE 754 binary64 value
      ([spec_float] with [prec = 53] and [emax = 1024]), and the
      generator is embedded again with the correctly rounded operations.
      This embedding carries what depends on rounding: the stored profit,
      cumulative profit, revenue growth and cost.

    Objects.  A property lookup [o[key]] on an object literal finds the
    literal's own properties and then the members of [Object.prototype].

    Randomness.  The successive results of [Math.random()] are a sequence
    [random]; the loop state counts the calls made so far.

    Inputs.  The controller passes the results of [parseInt] to the
    generator: integers in [JS], the doubles themselves in [B64]. *)

From Stdlib Require Import ZArith QArith Qround Qminmax List String Lia Lqa Bool.
From Stdlib Require DecimalString.
From Stdlib Require Import SpecFloat.
Import ListNotations.

Local Open Scope Q_scope.

(** ** JavaScript numbers *)

Module JS.

Inductive num : Type :=
| NaN
| PInf
| NInf
| Fin (q : Q).

Definition of_Z (z : Z) : num := Fin (inject_Z z).

Definition is_zero (q : Q) : bool := Qeq_bool q 0.
Definition is_neg (q : Q) : bool := negb (Qle_bool 0 q).

(** [a + b] *)
Definition add (a b : num) : num :=
  match a, b with
  | NaN, _ | _, NaN => NaN
  | PInf, NInf | NInf, PInf => NaN
  | PInf, _ | _, PInf => PInf
  | NInf, _ | _, NInf => NInf
  | Fin x, Fin y => Fin (x + y)
  end.

(** [a - b] *)
Definition sub (a b : num) : num :=
  match a, b with
  | NaN, _ | _, NaN => NaN
  | PInf, PInf | NInf, NInf => NaN
  | PInf, _ | _, NInf => PInf
  | NInf, _ | _, PInf => NInf
  | Fin x, Fin y => Fin (x - y)
  end.

(** An infinity of the given sign ([true] is negative). *)
Definition inf (negative : bool) : num := if negative then NInf else PInf.

(** infinity times a finite number *)
Definition inf_times (negative : bool) (q : Q) : num :=
  if is_zero q then NaN else inf (xorb negative (is_neg q)).

(** [a * b] *)
Definition mul (a b : num) : num :=
  match a, b with
  | NaN, _ | _, NaN => NaN
  | PInf, PInf | NInf, NInf => PInf
  | PInf, NInf | NInf, PInf => NInf
  | PInf, Fin q | Fin q, PInf => inf_times false q
  | NInf, Fin q | Fin q, NInf => inf_times true q
  | Fin x, Fin y => Fin (x * y)
  end.

(** [a / b]; a finite number over zero is an infinity of the sign of the
    numerator, and zero over zero is NaN. *)
Definition div (a b : num) : num :=
  match a, b with
  | NaN, _ | _, NaN => NaN
  | Fin x, Fin y =>
      if is_zero y then (if is_zero x then NaN else inf (is_neg x))
      else Fin (x / y)
  | Fin _, _ => Fin 0
  | PInf, Fin y => inf (is_neg y)
  | NInf, Fin y => inf (negb (is_neg y))
  | _, _ => NaN
  end.

(** truncation toward zero *)
Definition Qtrunc (q : Q) : Z := if is_neg q then Qceiling q else Qfloor q.

(** [a % b]: the remainder has the sign of the dividend. *)
Definition rem (a b : num) : num :=
  match a, b with
  | Fin x, Fin y =>
      if is_zero y then NaN else Fin (x - y * inject_Z (Qtrunc (x / y)))
  | Fin x, (PInf | NInf) => Fin x
  | _, _ => NaN
  end.

(** [Math.min(a, b)] *)
Definition min (a b : num) : num :=
  match a, b with
  | NaN, _ | _, NaN => NaN
  | NInf, _ | _, NInf => NInf
  | PInf, c | c, PInf => c
  | Fin x, Fin y => Fin (Qmin x y)
  end.

(** [Math.round(a)]: the nearest integer, ties toward +infinity. *)
Definition round (a : num) : num :=
  match a with
  | Fin q => of_Z (Qfloor (q + 0.5))
  | _ => a
  end.

(** [Math.ceil(a)] *)
Definition ceil (a : num) : num :=
  match a with
  | Fin q => of_Z (Qceiling q)
  | _ => a
  end.

(** [a === b] on numbers: NaN is different from everything. *)
Definition strict_eq (a b : num) : bool :=
  match a, b with
  | Fin x, Fin y => Qeq_bool x y
  | PInf, PInf | NInf, NInf => true
  | _, _ => false
  end.

(** [a <= b] *)
Definition le (a b : num) : bool :=
  match a, b with
  | NaN, _ | _, NaN => false
  | NInf, _ | _, PInf => true
  | Fin x, Fin y => Qle_bool x y
  | _, _ => false
  end.

(** [a >= b] *)
Definition ge (a b : num) : bool := le b a.

(** Truthiness of a number: every number but zero and NaN. *)
Definition truthy (a : num) : bool :=
  match a with
  | NaN => false
  | Fin q => negb (is_zero q)
  | _ => true
  end.

(** [a || b] on numbers *)
Definition or_else (a b : num) : num := if truthy a then a else b.


End JS.

Import JS.

Declare Scope js_scope.
Delimit Scope js_scope with js.
Bind Scope js_scope with num.
Notation "a + b" := (add a b) : js_scope.
Notation "a - b" := (sub a b) : js_scope.
Notation "a * b" := (mul a b) : js_scope.
Notation "a / b" := (div a b) : js_scope.

(** Number literals of the source. *)
Definition lit (q : Q) : num := Fin q.
Coercion lit : Q >-> num.

(** ** Growth model *)

Record GrowthFactors : Type := mkFactors {
  monthlyGrowth : num;
  maxCapacity : num
}.

(** The object literal [factors] of [getGrowthFactors]: its own
    properties, in source order. *)
Definition factors : list (string * GrowthFactors) :=
  [ ("B2B Manufacturing"%string, mkFactors 0.08 1.2);
    ("Penjualan Langsung (B2C)"%string, mkFactors 0.12 1.5);
    ("Layanan Berlangganan"%string, mkFactors 0.05 1.1);
    ("Waralaba (Franchise)"%string, mkFactors 0.06 1.3);
    ("Produksi (B2B)"%string, mkFactors 0.07 1.15) ].

(** The property names every object literal inherits from
    [Object.prototype]; each of them holds a function or an object, so
    each is truthy. *)
Definition object_prototype_keys : list string :=
  [ "constructor"; "__defineGetter__"; "__defineSetter__"; "hasOwnProperty";
    "__lookupGetter__"; "__lookupSetter__"; "isPrototypeOf";
    "propertyIsEnumerable"; "toString"; "valueOf"; "__proto__";
    "toLocaleString" ]%string.

(** What [factors[key] || {...}] evaluates to: a growth-factor object, or a
    member inherited from [Object.prototype]. *)
Inductive FactorsValue : Type :=
| Row (gf : GrowthFactors)
| Inherited (name : string).

Fixpoint own_property {A : Type} (o : list (string * A)) (key : string) : option A :=
  match o with
  | [] => None
  | (k, v) :: rest => if String.eqb k key then Some v else own_property rest key
  end.

Definition inherited (key : string) : bool :=
  existsb (String.eqb key) object_prototype_keys.

(** The property key a value is converted to: a string is its own key and
    [null] gives ["null"] (as [undefined] gives ["undefined"], which is
    no property of the table or of [Object.prototype] either). *)
Definition property_key (business_model : option string) : string :=
  match business_model with
  | Some s => s
  | None => "null"%string
  end.

Definition default_factors : GrowthFactors := mkFactors 0.08 1.2.

Definition getGrowthFactors (business_model : option string) : FactorsValue :=
  let key := property_key business_model in
  match own_property factors key with
  | Some gf => Row gf
  | None => if inherited key then Inherited key else Row default_factors
  end.

(** [growthFactors.monthlyGrowth]: a member of [Object.prototype] has no
    such property, and [undefined] is NaN in arithmetic. *)
Definition factors_monthlyGrowth (v : FactorsValue) : num :=
  match v with
  | Row gf => monthlyGrowth gf
  | Inherited _ => NaN
  end.

Definition factors_maxCapacity (v : FactorsValue) : num :=
  match v with
  | Row gf => maxCapacity gf
  | Inherited _ => NaN
  end.

(** ** Seasonality model *)

Definition seasonalPatterns : list (Z * num) :=
  [ (1%Z, lit 0.9); (2%Z, lit 0.95); (3%Z, lit 1.0); (4%Z, lit 1.0);
    (5%Z, lit 1.05); (6%Z, lit 1.1); (7%Z, lit 1.15); (8%Z, lit 1.1);
    (9%Z, lit 1.05); (10%Z, lit 1.0); (11%Z, lit 0.95); (12%Z, lit 0.9) ].

Fixpoint lookupZ {A : Type} (o : list (Z * A)) (key : Z) : option A :=
  match o with
  | [] => None
  | (k, v) :: rest => if Z.eqb k key then Some v else lookupZ rest key
  end.

(** [seasonalPatterns[((month - 1) % 12) + 1] || 1.0]; [%] truncates. *)
Definition getSeasonalMultiplier (month : Z) : num :=
  match lookupZ seasonalPatterns (Z.rem (month - 1) 12 + 1) with
  | Some v => or_else v 1.0
  | None => 1.0
  end.

(** ** Monthly projection generator *)

(** The arguments of [generateDynamicMonthlyData]; the controller passes
    the results of [parseInt] for the four numeric fields. *)
Record FinancialInputs : Type := mkInputs {
  initial_investment : Z;
  expected_monthly_revenue : Z;
  monthly_operating_cost : Z;
  timeframe : Z;
  business_model : option string
}.

Record MonthlyDataPoint : Type := mkPoint {
  month : Z;
  revenue : num;
  cost : num;
  profit : num;
  cumulativeProfit : num;
  revenueGrowth : num;
  capacityUtilization : num
}.

(** [a[i]] for an array [a]: [undefined] out of range. *)
Definition elem_at {A : Type} (a : list A) (i : Z) : option A :=
  if (i <? 0)%Z then None else nth_error a (Z.to_nat i).

Definition length_of {A : Type} (a : list A) : Z := Z.of_nat (List.length a).

(** [Math.random() * 0.1 - 0.05] for a draw [r] of [Math.random()]. *)
Definition variance (r : Q) : num := (lit r * 0.1 - 0.05)%js.

(** The [cumulativeProfit] local of the loop body. *)
Definition next_cumulativeProfit (monthlyData : list MonthlyDataPoint)
  (profit : num) (initial_investment : Z) : num :=
  if (0 <? length_of monthlyData)%Z then
    match elem_at monthlyData (length_of monthlyData - 1) with
    | Some last => (cumulativeProfit last + profit)%js
    | None => NaN (* not reached: the index is in range *)
    end
  else (profit - of_Z initial_investment)%js.

(** [monthlyData[month - 2]?.revenue || adjustedRevenue] *)
Definition previous_revenue (monthlyData : list MonthlyDataPoint)
  (month : Z) (adjustedRevenue : num) : num :=
  match elem_at monthlyData (month - 2) with
  | Some prev => or_else (revenue prev) adjustedRevenue
  | None => adjustedRevenue
  end.

(** The variables the loop of [generateDynamicMonthlyData] updates, and the
    number of calls of [Math.random] made so far. *)
Record LoopState : Type := mkState {
  st_month : Z;
  currentRevenue : num;
  currentCost : num;
  monthlyData : list MonthlyDataPoint;
  draws : nat
}.

Section Generator.

(** The successive results of [Math.random()]. *)
Variable random : nat -> Q.

Definition grow (inp : FinancialInputs) (growthFactors : FactorsValue)
  (st : LoopState) : num * nat :=
  if (1 <? st_month st)%Z then
    let growthRate :=
      (factors_monthlyGrowth growthFactors * (1 + variance (random (draws st))))%js in
    (min (currentRevenue st * (1 + growthRate))%js
         (of_Z (expected_monthly_revenue inp) * factors_maxCapacity growthFactors)%js,
     S (draws st))
  else (currentRevenue st, draws st).

Definition loop_body (inp : FinancialInputs) (growthFactors : FactorsValue)
  (st : LoopState) : LoopState :=
  let month := st_month st in
  let '(currentRevenue, n) := grow inp growthFactors st in
  let costVariation := (1 + variance (random n))%js in
  let currentCost := (of_Z (monthly_operating_cost inp) * costVariation)%js in
  let seasonalMultiplier := getSeasonalMultiplier month in
  let adjustedRevenue := (currentRevenue * seasonalMultiplier)%js in
  let profit := (adjustedRevenue - currentCost)%js in
  let cumulativeProfit :=
    next_cumulativeProfit (monthlyData st) profit (initial_investment inp) in
  let prev := previous_revenue (monthlyData st) month adjustedRevenue in
  let point :=
    mkPoint month
      (round adjustedRevenue)
      (round currentCost)
      (round profit)
      (round cumulativeProfit)
      (round ((adjustedRevenue - prev) / prev * 100)%js)
      (round (adjustedRevenue / of_Z (expected_monthly_revenue inp) * 100)%js) in
  mkState (month + 1) currentRevenue currentCost (monthlyData st ++ [point]) (S n).

(** [n] turns of the loop. *)
Fixpoint iterate (n : nat) (inp : FinancialInputs) (growthFactors : FactorsValue)
  (st : LoopState) : LoopState :=
  match n with
  | O => st
  | S k => loop_body inp growthFactors (iterate k inp growthFactors st)
  end.

Definition initial_state (inp : FinancialInputs) : LoopState :=
  mkState 1
    (of_Z (expected_monthly_revenue inp) * 0.6)%js
    (of_Z (monthly_operating_cost inp))
    [] 0.

(** The state after the turns for months [1 .. k]. *)
Definition state_after (k : nat) (inp : FinancialInputs) : LoopState :=
  iterate k inp (getGrowthFactors (business_model inp)) (initial_state inp).

(** [for (let month = 1; month <= timeframe; month++)] makes
    [timeframe] turns, none when [timeframe] is below 1. *)
Definition generateDynamicMonthlyData (inp : FinancialInputs) : list MonthlyDataPoint :=
  monthlyData (state_after (Z.to_nat (timeframe inp)) inp).

End Generator.

(** ** Payback period *)

(** The scan of the [for] loop from index [i]: the first index whose
    [cumulativeProfit >= 0]. *)
Fixpoint first_payback_index (monthlyData : list MonthlyDataPoint) (i : Z) : option Z :=
  match monthlyData with
  | [] => None
  | p :: rest =>
      if ge (cumulativeProfit p) 0 then Some i
      else first_payback_index rest (i + 1)
  end.

Definition calculateDynamicPaybackPeriod (monthlyData : list MonthlyDataPoint)
  (initialInvestment : num) : num :=
  match first_payback_index monthlyData 0 with
  | Some i => (of_Z (i + 1) / 12)%js
  | None => (of_Z (length_of monthlyData) / 12)%js
  end.

(** ** Chart data *)

(** [a.filter((_, index) => keep(_, index))], from index [i]. *)
Fixpoint filter_from {A : Type} (keep : A -> Z -> bool) (a : list A) (i : Z) : list A :=
  match a with
  | [] => []
  | x :: rest =>
      if keep x i then x :: filter_from keep rest (i + 1)
      else filter_from keep rest (i + 1)
  end.

Definition filter_indexed {A : Type} (keep : A -> Z -> bool) (a : list A) : list A :=
  filter_from keep a 0.

(** [Math.ceil(a.length / targetPoints)] *)
Definition sampleRate_of {A : Type} (a : list A) (targetPoints : Q) : num :=
  ceil (of_Z (length_of a) / targetPoints)%js.

(** [a.filter((_, index) => index % sampleRate === 0)] *)
Definition sample {A : Type} (a : list A) (sampleRate : num) : list A :=
  filter_indexed (fun _ index => strict_eq (rem (of_Z index) sampleRate) 0) a.

(** [`Month ${m}`] *)
Definition month_label (m : Z) : string :=
  ("Month " ++ DecimalString.NilZero.string_of_int (Z.to_int m))%string.

(** A dataset of a chart; the colours and line styles of the source are
    constants and are left out. *)
Record Dataset : Type := mkDataset {
  label : string;
  data : list num
}.

Record ChartData : Type := mkChart {
  labels : list string;
  datasets : list Dataset
}.

Definition generateRevenueCostChartData (monthlyData : list MonthlyDataPoint) : ChartData :=
  let sampleRate := sampleRate_of monthlyData 24 in
  let sampledData := sample monthlyData sampleRate in
  mkChart
    (map (fun item => month_label (month item)) sampledData)
    [ mkDataset "Revenue" (map revenue sampledData);
      mkDataset "Cost" (map cost sampledData);
      mkDataset "Profit" (map profit sampledData) ].

Record RoiPoint : Type := mkRoiPoint {
  roi_month : Z;
  roi : num
}.

Definition roiData_of (monthlyData : list MonthlyDataPoint) (initialInvestment : num)
  : list RoiPoint :=
  map (fun item =>
         mkRoiPoint (month item)
           ((cumulativeProfit item + initialInvestment) / initialInvestment * 100)%js)
      monthlyData.

Definition generateRoiGrowthChartData (monthlyData : list MonthlyDataPoint)
  (finalROI initialInvestment : num) : ChartData :=
  let roiData := roiData_of monthlyData initialInvestment in
  let sampleRate := sampleRate_of roiData 12 in
  let sampledROIData := sample roiData sampleRate in
  mkChart
    (map (fun item => month_label (roi_month item)) sampledROIData)
    [ mkDataset "ROI Progress" (map (fun item => min (roi item) finalROI) sampledROIData);
      mkDataset "Target ROI" (map (fun _ => finalROI) sampledROIData) ].


(** ** Performance metrics *)

Module Metrics.

Record FinancialDetails : Type := mkDetails {
  initial_investment : num;
  expected_monthly_revenue : num;
  monthly_operating_cost : num;
  timeframe : num
}.

Record RoiResult : Type := mkResult {
  financialDetails : FinancialDetails;
  roi_percentage : num;
  net_profit : num;
  payback_period_years : num
}.

Record Summary : Type := mkSummary {
  s_roi : num;
  netProfit : num;
  paybackPeriod : num;
  totalMonths : num
}.

Record Averages : Type := mkAverages {
  monthlyRevenue : num;
  monthlyCost : num;
  monthlyProfit : num
}.

Record Efficiency : Type := mkEfficiency {
  profitMargin : num;
  investmentEfficiency : num
}.

Record PerformanceMetrics : Type := mkMetrics {
  summary : Summary;
  averages : Averages;
  efficiency : Efficiency
}.

Definition generatePerformanceMetrics (roiResult : RoiResult) : PerformanceMetrics :=
  let fd := financialDetails roiResult in
  mkMetrics
    (mkSummary (roi_percentage roiResult) (net_profit roiResult)
       (payback_period_years roiResult) (timeframe fd))
    (mkAverages (expected_monthly_revenue fd) (monthly_operating_cost fd)
       (expected_monthly_revenue fd - monthly_operating_cost fd)%js)
    (mkEfficiency
       (or_else
          (net_profit roiResult / (expected_monthly_revenue fd * timeframe fd) * 100)%js
          0)
       (net_profit roiResult / initial_investment fd * 100)%js).

End Metrics.

(** ** The same functions in binary64 arithmetic *)

Module B64.

Definition prec : Z := 53.
Definition emax : Z := 1024.

(** A JavaScript number as an IEEE 754 binary64 value. *)
Definition f64 : Type := spec_float.

Definition add : f64 -> f64 -> f64 := SFadd prec emax.
Definition sub : f64 -> f64 -> f64 := SFsub prec emax.
Definition mul : f64 -> f64 -> f64 := SFmul prec emax.
Definition div : f64 -> f64 -> f64 := SFdiv prec emax.

(** The double nearest to an integer. *)
Definition of_Z (z : Z) : f64 := binary_normalize prec emax z 0 false.

(** A decimal literal of the source: the double nearest to it, which the
    correctly rounded quotient of its numerator and denominator is. *)
Definition lit (q : Q) : f64 := div (of_Z (Qnum q)) (of_Z (Zpos (Qden q))).

(** [Math.round(x)]: the integer nearest to [x], ties toward +infinity;
    a result of zero keeps the sign of [x]. *)
Definition round (x : f64) : f64 :=
  match x with
  | S754_finite s m e =>
      if (0 <=? e)%Z then x
      else
        match Z.shiftr (cond_Zopp s (Zpos m) + Z.shiftl 1 (- e - 1)) (- e) with
        | Z0 => S754_zero s
        | z => of_Z z
        end
  | _ => x
  end.

(** [Math.min(a, b)] *)
Definition min (a b : f64) : f64 :=
  match SFcompare a b with
  | None => S754_nan
  | Some Lt => a
  | Some Gt => b
  | Some Eq => match a with S754_zero true => a | _ => b end
  end.

(** [a === b], [a <= b], [a >= b] *)
Definition strict_eq : f64 -> f64 -> bool := SFeqb.
Definition le : f64 -> f64 -> bool := SFleb.
Definition ge (a b : f64) : bool := SFleb b a.

Definition truthy (x : f64) : bool :=
  match x with
  | S754_nan | S754_zero _ => false
  | _ => true
  end.

(** [a || b] on numbers *)
Definition or_else (a b : f64) : f64 := if truthy a then a else b.

Record GrowthFactors : Type := mkFactors {
  monthlyGrowth : f64;
  maxCapacity : f64
}.

Definition factors : list (string * GrowthFactors) :=
  [ ("B2B Manufacturing"%string, mkFactors (lit 0.08) (lit 1.2));
    ("Penjualan Langsung (B2C)"%string, mkFactors (lit 0.12) (lit 1.5));
    ("Layanan Berlangganan"%string, mkFactors (lit 0.05) (lit 1.1));
    ("Waralaba (Franchise)"%string, mkFactors (lit 0.06) (lit 1.3));
    ("Produksi (B2B)"%string, mkFactors (lit 0.07) (lit 1.15)) ].

Inductive FactorsValue : Type :=
| Row (gf : GrowthFactors)
| Inherited (name : string).

Definition getGrowthFactors (business_model : option string) : FactorsValue :=
  let key := property_key business_model in
  match own_property factors key with
  | Some gf => Row gf
  | None =>
      if inherited key then Inherited key
      else Row (mkFactors (lit 0.08) (lit 1.2))
  end.

(** [undefined] is NaN in arithmetic. *)
Definition factors_monthlyGrowth (v : FactorsValue) : f64 :=
  match v with
  | Row gf => monthlyGrowth gf
  | Inherited _ => S754_nan
  end.

Definition factors_maxCapacity (v : FactorsValue) : f64 :=
  match v with
  | Row gf => maxCapacity gf
  | Inherited _ => S754_nan
  end.

Definition seasonalPatterns : list (Z * f64) :=
  [ (1%Z, lit 0.9); (2%Z, lit 0.95); (3%Z, lit 1.0); (4%Z, lit 1.0);
    (5%Z, lit 1.05); (6%Z, lit 1.1); (7%Z, lit 1.15); (8%Z, lit 1.1);
    (9%Z, lit 1.05); (10%Z, lit 1.0); (11%Z, lit 0.95); (12%Z, lit 0.9) ].

Definition getSeasonalMultiplier (month : Z) : f64 :=
  match lookupZ seasonalPatterns (Z.rem (month - 1) 12 + 1) with
  | Some v => or_else v (lit 1.0)
  | None => lit 1.0
  end.

(** The arguments of [generateDynamicMonthlyData], as the doubles the
    controller passes; [timeframe] bounds the loop counter. *)
Record FinancialInputs : Type := mkInputs {
  initial_investment : f64;
  expected_monthly_revenue : f64;
  monthly_operating_cost : f64;
  timeframe : Z;
  business_model : option string
}.

Record MonthlyDataPoint : Type := mkPoint {
  month : Z;
  revenue : f64;
  cost : f64;
  profit : f64;
  cumulativeProfit : f64;
  revenueGrowth : f64;
  capacityUtilization : f64
}.

(** [Math.random() * 0.1 - 0.05] *)
Definition variance (r : f64) : f64 := sub (mul r (lit 0.1)) (lit 0.05).

Definition next_cumulativeProfit (monthlyData : list MonthlyDataPoint)
  (profit : f64) (initial_investment : f64) : f64 :=
  if (0 <? length_of monthlyData)%Z then
    match elem_at monthlyData (length_of monthlyData - 1) with
    | Some last => add (cumulativeProfit last) profit
    | None => S754_nan (* not reached: the index is in range *)
    end
  else sub profit initial_investment.

(** [monthlyData[month - 2]?.revenue || adjustedRevenue] *)
Definition previous_revenue (monthlyData : list MonthlyDataPoint)
  (month : Z) (adjustedRevenue : f64) : f64 :=
  match elem_at monthlyData (month - 2) with
  | Some prev => or_else (revenue prev) adjustedRevenue
  | None => adjustedRevenue
  end.

Record LoopState : Type := mkState {
  st_month : Z;
  currentRevenue : f64;
  currentCost : f64;
  monthlyData : list MonthlyDataPoint;
  draws : nat
}.

Section Generator.

(** The successive results of [Math.random()]. *)
Variable random : nat -> f64.

Definition grow (inp : FinancialInputs) (growthFactors : FactorsValue)
  (st : LoopState) : f64 * nat :=
  if (1 <? st_month st)%Z then
    let growthRate :=
      mul (factors_monthlyGrowth growthFactors)
          (add (of_Z 1) (variance (random (draws st)))) in
    (min (mul (currentRevenue st) (add (of_Z 1) growthRate))
         (mul (expected_monthly_revenue inp) (factors_maxCapacity growthFactors)),
     S (draws st))
  else (currentRevenue st, draws st).

Definition loop_body (inp : FinancialInputs) (growthFactors : FactorsValue)
  (st : LoopState) : LoopState :=
  let month := st_month st in
  let '(currentRevenue, n) := grow inp growthFactors st in
  let costVariation := add (of_Z 1) (variance (random n)) in
  let currentCost := mul (monthly_operating_cost inp) costVariation in
  let seasonalMultiplier := getSeasonalMultiplier month in
  let adjustedRevenue := mul currentRevenue seasonalMultiplier in
  let profit := sub adjustedRevenue currentCost in
  let cumulativeProfit :=
    next_cumulativeProfit (monthlyData st) profit (initial_investment inp) in
  let prev := previous_revenue (monthlyData st) month adjustedRevenue in
  let point :=
    mkPoint month
      (round adjustedRevenue)
      (round currentCost)
      (round profit)
      (round cumulativeProfit)
      (round (mul (div (sub adjustedRevenue prev) prev) (of_Z 100)))
      (round (mul (div adjustedRevenue (expected_monthly_revenue inp)) (of_Z 100))) in
  mkState (month + 1) currentRevenue currentCost (monthlyData st ++ [point]) (S n).

Fixpoint iterate (n : nat) (inp : FinancialInputs) (growthFactors : FactorsValue)
  (st : LoopState) : LoopState :=
  match n with
  | O => st
  | S k => loop_body inp growthFactors (iterate k inp growthFactors st)
  end.

Definition initial_state (inp : FinancialInputs) : LoopState :=
  mkState 1
    (mul (expected_monthly_revenue inp) (lit 0.6))
    (monthly_operating_cost inp)
    [] 0.

Definition state_after (k : nat) (inp : FinancialInputs) : LoopState :=
  iterate k inp (getGrowthFactors (business_model inp)) (initial_state inp).

Definition generateDynamicMonthlyData (inp : FinancialInputs) : list MonthlyDataPoint :=
  monthlyData (state_after (Z.to_nat (timeframe inp)) inp).

(** The locals [adjustedRevenue] and [profit] of the turn for month [k]
    (from 1). *)
Definition adjustedRevenue_at (k : nat) (inp : FinancialInputs) : f64 :=
  mul (currentRevenue (state_after k inp)) (getSeasonalMultiplier (Z.of_nat k)).

Definition profit_at (k : nat) (inp : FinancialInputs) : f64 :=
  sub (adjustedRevenue_at k inp) (currentCost (state_after k inp)).

End Generator.

Definition point_of_month (monthlyData : list MonthlyDataPoint) (k : nat)
  : option MonthlyDataPoint :=
  elem_at monthlyData (Z.of_nat k - 1).

(** The point a turn of the loop pushes, from the state [st] before the
    turn and the state [st'] after it. *)
Definition pushed_point (inp : FinancialInputs) (st st' : LoopState) : MonthlyDataPoint :=
  let adjustedRevenue := mul (currentRevenue st') (getSeasonalMultiplier (st_month st)) in
  let profit := sub adjustedRevenue (currentCost st') in
  let prev := previous_revenue (monthlyData st) (st_month st) adjustedRevenue in
  mkPoint (st_month st)
    (round adjustedRevenue)
    (round (currentCost st'))
    (round profit)
    (round (next_cumulativeProfit (monthlyData st) profit (initial_investment inp)))
    (round (mul (div (sub adjustedRevenue prev) prev) (of_Z 100)))
    (round (mul (div adjustedRevenue (expected_monthly_revenue inp)) (of_Z 100))).

(** A finite number other than zero. *)
Definition finite_nonzero (x : f64) : Prop :=
  match x with
  | S754_finite _ _ _ => True
  | _ => False
  end.

(** Every draw of [Math.random()] equal to 0.5: no variance. *)
Definition mid_draws : nat -> f64 := fun _ => lit 0.5.

(** Valid inputs on which the rounding of the cumulative profit shows:
    an investment of 100000, an expected monthly revenue of 100, a cost
    of 1, twelve months, the business model "Produksi (B2B)". *)
Definition drift_inputs : FinancialInputs :=
  mkInputs (of_Z 100000) (of_Z 100) (of_Z 1) 12 (Some "Produksi (B2B)"%string).

(** A small venture, for which the rounding of the stored revenue shows. *)
Definition small_inputs : FinancialInputs :=
  mkInputs (of_Z 10) (of_Z 2) (of_Z 1) 2 None.

(** A label that names a member of [Object.prototype]. *)
Definition inherited_inputs : FinancialInputs :=
  mkInputs (of_Z 100000) (of_Z 20000) (of_Z 12000) 12 (Some "toString"%string).

End B64.

(** The same inputs for the functions in exact arithmetic. *)
Definition inherited_inputs : FinancialInputs :=
  mkInputs 100000 20000 12000 12 (Some "toString"%string).


(** ** Vocabulary of the statements *)

(** The labels the source's table has rows for. *)
Definition source_labels : list string := map fst factors.

(** Inputs with a resolved label: the four numeric fields are positive
    integers, and the business-model label resolves to a growth-factor row
    (a row of the table or the default one), which every label does that
    is not the name of a member of [Object.prototype].  This is narrower
    than the valid inputs of the specification, which allow any label. *)
Record valid_inputs (inp : FinancialInputs) : Prop := mkValid {
  valid_investment : (0 < initial_investment inp)%Z;
  valid_revenue : (0 < expected_monthly_revenue inp)%Z;
  valid_cost : (0 < monthly_operating_cost inp)%Z;
  valid_timeframe : (0 < timeframe inp)%Z;
  valid_label : inherited (property_key (business_model inp)) = false
}.

(** The results of [Math.random()] lie between 0 and 1, so that each
    variance [Math.random() * 0.1 - 0.05] lies between -0.05 and 0.05. *)
Definition unit_draws (random : nat -> Q) : Prop :=
  forall i, 0 <= random i <= 1.

(** The point stored for month [k] (from 1), if the series has one. *)
Definition point_of_month (monthlyData : list MonthlyDataPoint) (k : nat)
  : option MonthlyDataPoint :=
  elem_at monthlyData (Z.of_nat k - 1).

(** Down-sampling in the specification's words: the sample rate is the
    ceiling of [length / targetPoints], and the points kept are those at
    the indices that are multiples of it. *)
Definition spec_sampleRate (n targetPoints : nat) : nat :=
  (n + targetPoints - 1) / targetPoints.

Definition spec_sample {A : Type} (a : list A) (sampleRate : nat) : list A :=
  map snd
    (filter (fun ix => Nat.eqb (fst ix mod sampleRate) 0)
       (combine (seq 0 (List.length a)) a)).

(** The months [1 .. n]. *)
Definition months_upto (n : nat) : list Z := map Z.of_nat (seq 1 n).

(** Not yet paid back: [cumulativeProfit >= 0] is false. *)
Definition unpaid (p : MonthlyDataPoint) : Prop := ge (cumulativeProfit p) 0 = false.
Definition paid (p : MonthlyDataPoint) : Prop := ge (cumulativeProfit p) 0 = true.

(** The point a turn of the loop pushes, from the state [st] before the
    turn and the state [st'] after it. *)
Definition pushed_point (inp : FinancialInputs) (st st' : LoopState) : MonthlyDataPoint :=
  let adjustedRevenue := (currentRevenue st' * getSeasonalMultiplier (st_month st))%js in
  let profit := (adjustedRevenue - currentCost st')%js in
  let prev := previous_revenue (monthlyData st) (st_month st) adjustedRevenue in
  mkPoint (st_month st)
    (round adjustedRevenue)
    (round (currentCost st'))
    (round profit)
    (round (next_cumulativeProfit (monthlyData st) profit (initial_investment inp)))
    (round ((adjustedRevenue - prev) / prev * 100)%js)
    (round (adjustedRevenue / of_Z (expected_monthly_revenue inp) * 100)%js).

(** [currentRevenue] after the growth step of a turn, from a finite
    [currentRevenue] [q] and a row with the finite factors [g] and [c]. *)
Definition grown_revenue (random : nat -> Q) (inp : FinancialInputs) (g c : Q)
  (st : LoopState) (q : Q) : Q :=
  if (1 <? st_month st)%Z then
    Qmin (q * (1 + g * (1 + (random (draws st) * 0.1 - 0.05))))
         (inject_Z (expected_monthly_revenue inp) * c)
  else q.

(** A reference run: the end-to-end inputs of the specification, an
    unknown business model, and every draw of [Math.random()] equal to
    0.5, which makes every variance 0. *)
Definition reference_inputs : FinancialInputs :=
  mkInputs 100000 20000 12000 12 (Some "Konsultan"%string).

Definition mid_draws : nat -> Q := fun _ => 0.5.

(** A small venture, for which the rounding of the stored revenue shows. *)
Definition small_inputs : FinancialInputs := mkInputs 10 2 1 2 None.

(** A three-year projection. *)
Definition three_year_inputs : FinancialInputs :=
  mkInputs 100000 20000 12000 36 (Some "B2B Manufacturing"%string).

(** The odd months 1, 3, ..., 35. *)
Definition odd_months : list Z := map (fun i => (2 * Z.of_nat i + 1)%Z) (seq 0 18).

(** The ROI of a month as the ROI-growth chart computes it. *)
Definition roi_of (initialInvestment : num) (item : MonthlyDataPoint) : num :=
  ((cumulativeProfit item + initialInvestment) / initialInvestment * 100)%js.

(** A series that breaks even in month 5. *)
Definition point_with (m c : Z) : MonthlyDataPoint :=
  mkPoint m 0 0 0 (of_Z c) 0 0.

Definition break_even_series : list MonthlyDataPoint :=
  [ point_with 1 (-400); point_with 2 (-300); point_with 3 (-200);
    point_with 4 (-100); point_with 5 0; point_with 6 100 ].

(** The totals [calculateRoi] reduces from the monthly data:
    [monthlyData.reduce((sum, month) => sum + month.revenue, 0)], the same
    for [cost], their difference and the ROI percentage. *)
Definition total_revenue (monthlyData : list MonthlyDataPoint) : num :=
  fold_left (fun sum month => (sum + revenue month)%js) monthlyData 0.

Definition total_operating_cost (monthlyData : list MonthlyDataPoint) : num :=
  fold_left (fun sum month => (sum + cost month)%js) monthlyData 0.

Definition net_profit_of (monthlyData : list MonthlyDataPoint) : num :=
  (total_revenue monthlyData - total_operating_cost monthlyData)%js.

Definition roi_percentage_of (monthlyData : list MonthlyDataPoint) (initInvest : Z) : num :=
  (net_profit_of monthlyData / of_Z initInvest * 100)%js.

(** Two sequences of draws that agree on the first [n] draws. *)
Definition same_draws (n : nat) (random random' : nat -> Q) : Prop :=
  forall i, (i < n)%nat -> random i = random' i.

(** ** Numbers: basic facts *)

Lemma is_zero_true (q : Q) : is_zero q = true <-> q == 0.
Proof. unfold is_zero. apply Qeq_bool_iff. Qed.

Lemma is_zero_false (q : Q) : is_zero q = false <-> ~ q == 0.
Proof.
  unfold is_zero. split; intro H.
  - intro E. apply Qeq_bool_iff in E. congruence.
  - destruct (Qeq_bool q 0) eqn:E; [|reflexivity].
    apply Qeq_bool_iff in E. contradiction.
Qed.

Lemma is_neg_false (q : Q) : 0 <= q -> is_neg q = false.
Proof.
  intro H. unfold is_neg. apply (proj2 (Qle_bool_iff 0 q)) in H.
  now rewrite H.
Qed.

Lemma strict_eq_fin (x y : Q) : strict_eq (Fin x) (Fin y) = true <-> x == y.
Proof. simpl. apply Qeq_bool_iff. Qed.

Lemma le_fin (x y : Q) : le (Fin x) (Fin y) = true <-> x <= y.
Proof. simpl. apply Qle_bool_iff. Qed.

(** ** Growth model *)

Lemma own_property_absent {A : Type} (o : list (string * A)) (key : string) :
  ~ In key (map fst o) -> own_property o key = None.
Proof.
  induction o as [|[k v] o IH]; intro H; [reflexivity|].
  cbn [own_property]. destruct (String.eqb k key) eqn:E.
  - apply String.eqb_eq in E. exfalso. apply H. now left.
  - apply IH. intro I. apply H. now right.
Qed.

Lemma not_inherited (key : string) :
  ~ In key object_prototype_keys -> inherited key = false.
Proof.
  intro H. unfold inherited.
  destruct (existsb (String.eqb key) object_prototype_keys) eqn:E; [|reflexivity].
  apply existsb_exists in E. destruct E as [k [I E]].
  apply String.eqb_eq in E. subst k. contradiction.
Qed.

Lemma inherited_spec (key : string) :
  inherited key = true <-> In key object_prototype_keys.
Proof.
  unfold inherited. rewrite existsb_exists. split.
  - intros [k [I E]]. apply String.eqb_eq in E. now subst k.
  - intro I. exists key. split; [assumption|apply String.eqb_refl].
Qed.

(** A label that is neither in the table nor inherited gets the default. *)
Lemma getGrowthFactors_default (s : string) :
  ~ In s source_labels -> ~ In s object_prototype_keys ->
  getGrowthFactors (Some s) = Row default_factors.
Proof.
  intros H1 H2. unfold getGrowthFactors. cbn [property_key].
  rewrite (own_property_absent factors s H1), (not_inherited s H2).
  reflexivity.
Qed.

(** The lookup finds the members of [Object.prototype] too: such a label
    gets no growth-factor object at all. *)
Lemma getGrowthFactors_inherited (s : string) :
  In s object_prototype_keys -> getGrowthFactors (Some s) = Inherited s.
Proof.
  intro H. unfold getGrowthFactors. cbn [property_key].
  assert (N : own_property factors s = None).
  { apply own_property_absent. intro I.
    cbv [object_prototype_keys In] in H. cbv [factors map fst In] in I.
    repeat (destruct H as [H|H]; [subst s;
      repeat (destruct I as [I|I]; [discriminate I|]); exact I|]).
    exact H. }
  rewrite N. apply inherited_spec in H. now rewrite H.
Qed.

(** Every row of the table, and the default row, has a positive growth
    rate and a capacity ceiling of at least 1.1. *)
Lemma rows_positive (bm : option string) (gf : GrowthFactors) :
  getGrowthFactors bm = Row gf ->
  exists g c, monthlyGrowth gf = Fin g /\ maxCapacity gf = Fin c /\
              0.05 <= g /\ 1.1 <= c.
Proof.
  unfold getGrowthFactors. set (key := property_key bm). clearbody key.
  unfold factors. cbn [own_property].
  repeat match goal with
  | |- context [String.eqb ?a key] => destruct (String.eqb a key)
  end;
  try (destruct (inherited key); [discriminate|]);
  intro H; injection H as <-; cbn [monthlyGrowth maxCapacity default_factors lit];
  do 2 eexists; (split; [reflexivity|split; [reflexivity|split; lra]]).
Qed.

(** C1, as the code has it: the table's rows are keyed by the labels the
    source spells ("B2B Manufacturing", "Penjualan Langsung (B2C)",
    "Layanan Berlangganan", "Waralaba (Franchise)", "Produksi (B2B)");
    the lookup returns exactly the row of each of them, and the default
    row {0.08, 1.2} for [null] and for every string that is neither one of
    these labels nor the name of a member inherited from
    [Object.prototype]; it is a total function and raises nothing. *)
Theorem getGrowthFactors_table :
  getGrowthFactors (Some "B2B Manufacturing"%string) = Row (mkFactors 0.08 1.2) /\
  getGrowthFactors (Some "Penjualan Langsung (B2C)"%string) = Row (mkFactors 0.12 1.5) /\
  getGrowthFactors (Some "Layanan Berlangganan"%string) = Row (mkFactors 0.05 1.1) /\
  getGrowthFactors (Some "Waralaba (Franchise)"%string) = Row (mkFactors 0.06 1.3) /\
  getGrowthFactors (Some "Produksi (B2B)"%string) = Row (mkFactors 0.07 1.15) /\
  getGrowthFactors None = Row (mkFactors 0.08 1.2) /\
  forall s : string,
    ~ In s source_labels -> ~ In s object_prototype_keys ->
    getGrowthFactors (Some s) = Row (mkFactors 0.08 1.2).
Proof.
  repeat (split; [reflexivity|]).
  intros s H1 H2. now apply getGrowthFactors_default.
Qed.

Lemma getGrowthFactors_table_witness :
  getGrowthFactors (Some "Consulting"%string) = Row (mkFactors 0.08 1.2).
Proof.
  apply (proj2 (proj2 (proj2 (proj2 (proj2 (proj2 getGrowthFactors_table)))))).
  - cbv [source_labels factors map fst In]. intro H.
    repeat (destruct H as [H|H]; [discriminate H|]). exact H.
  - cbv [object_prototype_keys In]. intro H.
    repeat (destruct H as [H|H]; [discriminate H|]). exact H.
Defined.

(** C1 as stated fails: the specification's label
    'Direct-to-consumer sales' has no row in the source's table, so it
    gets the default growth rate 0.08 and not 0.12. *)
Lemma getGrowthFactors_english_label :
  getGrowthFactors (Some "Direct-to-consumer sales"%string) = Row (mkFactors 0.08 1.2) /\
  strict_eq (factors_monthlyGrowth (getGrowthFactors (Some "Direct-to-consumer sales"%string)))
            0.12 = false /\
  getGrowthFactors (Some "Direct-to-consumer sales"%string) <> Row (mkFactors 0.12 1.5).
Proof.
  split; [reflexivity|]. split; [reflexivity|]. discriminate.
Qed.

(** ** Performance metrics *)

(** When the denominator is zero and the net profit is not, the quotient
    is an infinity, which is truthy: the [|| 0] does not replace it. *)
Lemma profitMargin_zero_denominator (r : Metrics.RoiResult) (p : Q) :
  strict_eq (Metrics.expected_monthly_revenue (Metrics.financialDetails r) *
             Metrics.timeframe (Metrics.financialDetails r))%js 0 = true ->
  Metrics.net_profit r = Fin p ->
  Metrics.profitMargin (Metrics.efficiency (Metrics.generatePerformanceMetrics r)) =
    if is_zero p then Fin 0 else inf (is_neg p).
Proof.
  intros D N. unfold Metrics.generatePerformanceMetrics.
  cbn [Metrics.efficiency Metrics.profitMargin]. rewrite N.
  destruct (Metrics.expected_monthly_revenue (Metrics.financialDetails r) *
            Metrics.timeframe (Metrics.financialDetails r))%js as [| | |d];
    try discriminate D.
  apply strict_eq_fin in D. apply is_zero_true in D.
  cbn [div lit]. rewrite D.
  destruct (is_zero p); [reflexivity|].
  destruct (is_neg p); reflexivity.
Qed.

(** C2 at a failing input: an expected monthly revenue of 0 over 12
    months with a net profit of -144000.  The denominator is zero, and
    the profit margin is minus infinity, not 0. *)
Theorem profitMargin_not_guarded :
  let r := Metrics.mkResult (Metrics.mkDetails 100000 0 12000 12) (-144) (-144000) 1 in
  strict_eq (Metrics.expected_monthly_revenue (Metrics.financialDetails r) *
             Metrics.timeframe (Metrics.financialDetails r))%js 0 = true /\
  Metrics.profitMargin (Metrics.efficiency (Metrics.generatePerformanceMetrics r)) = NInf /\
  strict_eq
    (Metrics.profitMargin (Metrics.efficiency (Metrics.generatePerformanceMetrics r)))
    0 = false.
Proof.
  cbv zeta. split; [reflexivity|]. split; reflexivity.
Qed.

(** ** Payback period *)

Section Payback.

Implicit Types (monthlyData : list MonthlyDataPoint) (p : MonthlyDataPoint).

(** The scan finds the first paid index. *)
Lemma first_payback_index_found monthlyData (i : nat) p (start : Z) :
  nth_error monthlyData i = Some p -> paid p ->
  (forall j q, (j < i)%nat -> nth_error monthlyData j = Some q -> unpaid q) ->
  first_payback_index monthlyData start = Some (start + Z.of_nat i)%Z.
Proof.
  revert i start. induction monthlyData as [|x rest IH]; intros i start Hi Hp Hbefore.
  - destruct i; discriminate Hi.
  - destruct i as [|i]; cbn [first_payback_index].
    + injection Hi as ->. unfold paid in Hp. rewrite Hp. f_equal. lia.
    + rewrite (Hbefore 0%nat x); [|lia|reflexivity].
      rewrite (IH i (start + 1)%Z Hi Hp).
      * f_equal. lia.
      * intros j q Hj Hq. apply (Hbefore (S j) q); [lia|exact Hq].
Qed.

Lemma first_payback_index_none monthlyData (start : Z) :
  (forall q, In q monthlyData -> unpaid q) ->
  first_payback_index monthlyData start = None.
Proof.
  revert start. induction monthlyData as [|x rest IH]; intros start H; [reflexivity|].
  cbn [first_payback_index]. rewrite (H x); [|now left].
  apply IH. intros q I. apply H. now right.
Qed.

(** C5: if [i] is the smallest 0-based index whose cumulativeProfit is
    [>= 0], the payback estimator returns (i + 1) / 12; if no element has a
    non-negative cumulativeProfit it returns length / 12; and a series
    whose cumulativeProfit is negative for months 1..4 and non-negative
    from month 5 on gives 5 / 12. *)
Theorem calculateDynamicPaybackPeriod_spec monthlyData (initialInvestment : num) :
  (forall (i : nat) p,
      nth_error monthlyData i = Some p -> paid p ->
      (forall j q, (j < i)%nat -> nth_error monthlyData j = Some q -> unpaid q) ->
      calculateDynamicPaybackPeriod monthlyData initialInvestment
      = Fin (inject_Z (Z.of_nat i + 1) / 12)) /\
  ((forall q, In q monthlyData -> unpaid q) ->
      calculateDynamicPaybackPeriod monthlyData initialInvestment
      = Fin (inject_Z (Z.of_nat (List.length monthlyData)) / 12)) /\
  ((5 <= List.length monthlyData)%nat ->
   (forall j q, (j < 4)%nat -> nth_error monthlyData j = Some q -> unpaid q) ->
   (forall j q, (4 <= j)%nat -> nth_error monthlyData j = Some q -> paid q) ->
      calculateDynamicPaybackPeriod monthlyData initialInvestment = Fin (5 / 12)).
Proof.
  assert (A : forall (i : nat) p,
      nth_error monthlyData i = Some p -> paid p ->
      (forall j q, (j < i)%nat -> nth_error monthlyData j = Some q -> unpaid q) ->
      calculateDynamicPaybackPeriod monthlyData initialInvestment
      = Fin (inject_Z (Z.of_nat i + 1) / 12)).
  { intros i p Hi Hp Hb. unfold calculateDynamicPaybackPeriod.
    rewrite (first_payback_index_found monthlyData i p 0 Hi Hp Hb).
    reflexivity. }
  split; [exact A|]. split.
  - intro H. unfold calculateDynamicPaybackPeriod.
    rewrite (first_payback_index_none monthlyData 0 H). reflexivity.
  - intros Hlen Hneg Hpos.
    destruct (nth_error monthlyData 4) as [p|] eqn:E.
    + apply (A 4%nat p E); [apply (Hpos 4%nat); [lia|exact E]|exact Hneg].
    + apply nth_error_None in E. lia.
Qed.

End Payback.

Lemma calculateDynamicPaybackPeriod_spec_witness :
  calculateDynamicPaybackPeriod break_even_series 1000 = Fin (5 / 12).
Proof.
  apply (proj2 (proj2 (calculateDynamicPaybackPeriod_spec break_even_series 1000))).
  - cbn. lia.
  - intros j q Hj E. destruct j as [|[|[|[|j]]]]; try lia;
      injection E as <-; reflexivity.
  - intros j q Hj E. destruct j as [|[|[|[|[|[|j]]]]]]; try lia;
      try (injection E as <-; reflexivity).
    destruct j; discriminate E.
Defined.

(** ** Arrays *)

Lemma elem_at_nat {A : Type} (a : list A) (i : nat) :
  elem_at a (Z.of_nat i) = nth_error a i.
Proof.
  unfold elem_at. destruct (Z.ltb_spec (Z.of_nat i) 0); [lia|].
  now rewrite Nat2Z.id.
Qed.

Lemma elem_at_last {A : Type} (a : list A) (x : A) :
  elem_at (a ++ [x]) (length_of (a ++ [x]) - 1) = Some x.
Proof.
  unfold length_of. rewrite length_app. cbn [List.length].
  replace (Z.of_nat (List.length a + 1) - 1)%Z with (Z.of_nat (List.length a)) by lia.
  rewrite elem_at_nat, nth_error_app2 by lia.
  now rewrite Nat.sub_diag.
Qed.

(** ** The loop of the generator *)

Section GeneratorFacts.

Variable random : nat -> Q.
Variable inp : FinancialInputs.

Local Notation "'gf'" := (getGrowthFactors (business_model inp)).
Local Notation "'state' k" := (state_after random k inp) (at level 10, k at level 9).

Lemma state_after_S (k : nat) :
  state (S k) = loop_body random inp gf (state k).
Proof. reflexivity. Qed.

Lemma loop_body_month (v : FactorsValue) (st : LoopState) :
  st_month (loop_body random inp v st) = (st_month st + 1)%Z.
Proof. unfold loop_body. now destruct (grow random inp v st). Qed.

Lemma loop_body_revenue (v : FactorsValue) (st : LoopState) :
  currentRevenue (loop_body random inp v st) = fst (grow random inp v st).
Proof. unfold loop_body. now destruct (grow random inp v st). Qed.

Lemma loop_body_cost (v : FactorsValue) (st : LoopState) :
  currentCost (loop_body random inp v st) =
  (of_Z (monthly_operating_cost inp) *
   (1 + variance (random (snd (grow random inp v st)))))%js.
Proof. unfold loop_body. now destruct (grow random inp v st). Qed.

(** A turn pushes exactly one point. *)
Lemma loop_body_push (v : FactorsValue) (st : LoopState) :
  monthlyData (loop_body random inp v st) =
  monthlyData st ++ [pushed_point inp st (loop_body random inp v st)].
Proof.
  unfold pushed_point. rewrite loop_body_revenue, loop_body_cost.
  unfold loop_body. now destruct (grow random inp v st).
Qed.

Lemma state_data_S (k : nat) :
  monthlyData (state (S k))
  = monthlyData (state k) ++ [pushed_point inp (state k) (state (S k))].
Proof. rewrite state_after_S at 1. now rewrite loop_body_push. Qed.

Lemma state_month (k : nat) : st_month (state k) = (Z.of_nat k + 1)%Z.
Proof.
  induction k as [|k IH]; [reflexivity|].
  rewrite state_after_S, loop_body_month, IH. lia.
Qed.

(** The guard [month <= timeframe] holds before exactly the first
    [timeframe] turns. *)
Lemma loop_guard (k : nat) :
  (st_month (state k) <=? timeframe inp)%Z = true
  <-> (k < Z.to_nat (timeframe inp))%nat.
Proof. rewrite state_month, Z.leb_le. lia. Qed.

Lemma state_data_length (k : nat) : List.length (monthlyData (state k)) = k.
Proof.
  induction k as [|k IH]; [reflexivity|].
  rewrite state_after_S, loop_body_push, length_app, IH. cbn. lia.
Qed.

(** The data of an earlier state is a prefix of the data of a later one. *)
Lemma state_data_prefix (k n : nat) :
  (k <= n)%nat -> exists rest, monthlyData (state n) = monthlyData (state k) ++ rest.
Proof.
  induction 1 as [|n H [rest IH]].
  - exists []. now rewrite app_nil_r.
  - exists (rest ++ [pushed_point inp (state n) (state (S n))]).
    rewrite state_after_S at 1. rewrite loop_body_push, IH, <- app_assoc.
    reflexivity.
Qed.

(** The point of month [k + 1] is the one pushed by turn [k + 1]. *)
Lemma state_data_nth (k n : nat) :
  (k < n)%nat ->
  nth_error (monthlyData (state n)) k
  = Some (pushed_point inp (state k) (state (S k))).
Proof.
  intro H. destruct (state_data_prefix (S k) n H) as [rest E].
  rewrite E, state_after_S at 1. rewrite loop_body_push.
  rewrite <- app_assoc, nth_error_app2; rewrite state_data_length; [|lia].
  now rewrite Nat.sub_diag.
Qed.

Lemma point_of_month_generated (k : nat) :
  (1 <= k <= Z.to_nat (timeframe inp))%nat ->
  point_of_month (generateDynamicMonthlyData random inp) k
  = Some (pushed_point inp (state (k - 1)) (state k)).
Proof.
  intro H. unfold point_of_month, generateDynamicMonthlyData.
  replace (Z.of_nat k - 1)%Z with (Z.of_nat (k - 1)) by lia.
  rewrite elem_at_nat, state_data_nth by lia.
  now replace (S (k - 1)) with k by lia.
Qed.

Lemma months_upto_S (n : nat) :
  months_upto (S n) = months_upto n ++ [(Z.of_nat n + 1)%Z].
Proof.
  unfold months_upto. rewrite seq_S, map_app. cbn [map].
  do 2 f_equal. lia.
Qed.

Lemma state_data_months (n : nat) :
  map month (monthlyData (state n)) = months_upto n.
Proof.
  induction n as [|n IH]; [reflexivity|].
  rewrite state_after_S, loop_body_push, map_app, IH, months_upto_S.
  cbn [map pushed_point month]. now rewrite state_month.
Qed.

(** *** Finite values *)

Lemma variance_fin (r : Q) : variance r = Fin (r * 0.1 - 0.05).
Proof. reflexivity. Qed.

Section Resolved.

(** The label resolves to a row with finite factors. *)
Variables (row : GrowthFactors) (g c : Q).
Hypothesis gf_row : gf = Row row.
Hypothesis row_growth : monthlyGrowth row = Fin g.
Hypothesis row_capacity : maxCapacity row = Fin c.

Local Notation "'grown'" := (grown_revenue random inp g c).

Lemma grow_fin (st : LoopState) (q : Q) :
  currentRevenue st = Fin q ->
  fst (grow random inp (Row row) st) = Fin (grown st q).
Proof.
  intro H. unfold grow, grown_revenue. destruct (1 <? st_month st)%Z; [|exact H].
  cbn [fst factors_monthlyGrowth factors_maxCapacity].
  rewrite H, row_growth, row_capacity, variance_fin. reflexivity.
Qed.

Lemma state_revenue_S (k : nat) (q : Q) :
  currentRevenue (state k) = Fin q ->
  currentRevenue (state (S k)) = Fin (grown (state k) q).
Proof.
  intro H. rewrite state_after_S, loop_body_revenue, gf_row.
  now apply grow_fin.
Qed.

Lemma next_cumulativeProfit_later (d : list MonthlyDataPoint) (pp : MonthlyDataPoint)
  (pr : num) (ii : Z) :
  next_cumulativeProfit (d ++ [pp]) pr ii = (cumulativeProfit pp + pr)%js.
Proof.
  unfold next_cumulativeProfit. rewrite elem_at_last.
  destruct (Z.ltb_spec 0 (length_of (d ++ [pp]))) as [_|H]; [reflexivity|].
  unfold length_of in H. rewrite length_app in H. cbn [List.length] in H. lia.
Qed.

(** *** Bounds on the revenue *)

Section Bounds.

Hypothesis draws_unit : unit_draws random.
Hypothesis revenue_pos : (0 < expected_monthly_revenue inp)%Z.
Hypothesis growth_pos : 0.05 <= g.
Hypothesis capacity_big : 1.1 <= c.

Local Notation "'emr'" := (inject_Z (expected_monthly_revenue inp)).

Lemma emr_ge_1 : 1 <= emr.
Proof. change 1 with (inject_Z 1). rewrite <- Zle_Qle. lia. Qed.

(** The effective growth rate of every turn is positive. *)
Lemma growthRate_pos (i : nat) : 0 < g * (1 + (random i * 0.1 - 0.05)).
Proof.
  destruct (draws_unit i) as [L U].
  apply Qmult_lt_0_compat; lra.
Qed.

(** The capacity cap is at least the starting revenue. *)
Lemma cap_ge_start : emr * 0.6 <= emr * c.
Proof.
  assert (E := emr_ge_1).
  rewrite !(Qmult_comm emr). apply Qmult_le_compat_r; lra.
Qed.

Lemma grown_bounds (st : LoopState) (q : Q) :
  0 <= q <= emr * c -> q <= grown st q <= emr * c.
Proof.
  intros [L U]. unfold grown_revenue. destruct (1 <? st_month st)%Z.
  - split; [|apply Q.le_min_r].
    apply Q.min_glb; [|exact U].
    assert (G := growthRate_pos (draws st)).
    set (r := g * (1 + (random (draws st) * 0.1 - 0.05))) in *.
    assert (P : 0 <= q * r) by (apply Qmult_le_0_compat; lra).
    assert (E : q * (1 + r) == q + q * r) by ring.
    rewrite E. lra.
  - split; [apply Qle_refl|exact U].
Qed.

(** The revenue state stays between its start and the capacity cap. *)
Lemma state_revenue_bounds (k : nat) :
  exists q, currentRevenue (state k) = Fin q /\ emr * 0.6 <= q <= emr * c.
Proof.
  induction k as [|k [q [E [L U]]]].
  - eexists. split; [reflexivity|]. split; [apply Qle_refl|apply cap_ge_start].
  - exists (grown (state k) q). split; [now apply state_revenue_S|].
    assert (P := emr_ge_1).
    destruct (grown_bounds (state k) q) as [L' U']; [split; lra|].
    split; lra.
Qed.

Lemma state_revenue_mono (k : nat) :
  le (currentRevenue (state k)) (currentRevenue (state (S k))) = true.
Proof.
  destruct (state_revenue_bounds k) as [q [E [L U]]].
  rewrite (state_revenue_S k q E), E. apply le_fin.
  assert (P := emr_ge_1).
  apply grown_bounds. split; lra.
Qed.

End Bounds.

End Resolved.

End GeneratorFacts.

(** ** The generated series *)

Lemma valid_row (inp : FinancialInputs) :
  valid_inputs inp ->
  exists row g c,
    getGrowthFactors (business_model inp) = Row row /\
    monthlyGrowth row = Fin g /\ maxCapacity row = Fin c /\
    0.05 <= g /\ 1.1 <= c.
Proof.
  intros [_ _ _ _ L].
  assert (R : exists row, getGrowthFactors (business_model inp) = Row row).
  { unfold getGrowthFactors.
    destruct (own_property factors (property_key (business_model inp))).
    - eexists. reflexivity.
    - rewrite L. eexists. reflexivity. }
  destruct R as [row R]. destruct (rows_positive _ _ R) as [g [c H]].
  exists row, g, c. tauto.
Qed.

(** Why validity asks for a label that resolves to a row: the label
    "constructor" finds the member inherited from [Object.prototype], its
    [monthlyGrowth] is [undefined], and the revenue is NaN from month 2. *)
Example inherited_label_revenue :
  getGrowthFactors (Some "constructor"%string) = Inherited "constructor" /\
  currentRevenue
    (state_after mid_draws 2 (mkInputs 100000 20000 12000 12 (Some "constructor"%string)))
  = NaN.
Proof. split; reflexivity. Qed.

(** The first month of the reference run uses 54% of the capacity. *)
Example reference_first_month :
  point_of_month (generateDynamicMonthlyData mid_draws reference_inputs) 1
  = Some (mkPoint 1 (of_Z 10800) (of_Z 12000) (of_Z (-1200)) (of_Z (-101200))
            (of_Z 0) (of_Z 54)).
Proof. vm_compute. reflexivity. Qed.

Lemma reference_inputs_valid : valid_inputs reference_inputs.
Proof. constructor; cbn; try lia; reflexivity. Qed.

Lemma mid_draws_unit : unit_draws mid_draws.
Proof. intro i. unfold mid_draws. split; lra. Qed.

(** C8: for inputs with a positive timeframe (in particular for every
    valid input) and every sequence of draws, the generator returns
    exactly [timeframe] points, and their month fields are
    1, 2, ..., timeframe in this order. *)
Theorem generateDynamicMonthlyData_months (random : nat -> Q) (inp : FinancialInputs) :
  (0 < timeframe inp)%Z ->
  let data := generateDynamicMonthlyData random inp in
  length_of data = timeframe inp /\
  map month data = months_upto (Z.to_nat (timeframe inp)) /\
  forall k : nat, (1 <= k <= Z.to_nat (timeframe inp))%nat ->
    exists p, point_of_month data k = Some p /\ month p = Z.of_nat k.
Proof.
  intros H data. subst data. split; [|split].
  - unfold length_of, generateDynamicMonthlyData.
    rewrite state_data_length. lia.
  - apply state_data_months.
  - intros k Hk. eexists. split; [now apply point_of_month_generated|].
    cbn [pushed_point month]. rewrite state_month. lia.
Qed.

Lemma generateDynamicMonthlyData_months_witness :
  let data := generateDynamicMonthlyData mid_draws reference_inputs in
  length_of data = 12%Z /\
  map month data = months_upto 12 /\
  forall k : nat, (1 <= k <= 12)%nat ->
    exists p, point_of_month data k = Some p /\ month p = Z.of_nat k.
Proof.
  apply (generateDynamicMonthlyData_months mid_draws reference_inputs).
  cbn. lia.
Defined.

(** X18: for every input with four positive integer fields and a label
    that resolves to a growth-factor row (a row of the table or the
    default one), and every sequence of draws in [0, 1], the effective
    growth rate is positive at every draw, the capacity cap is at least
    the starting revenue, and [currentRevenue] does not decrease from any
    turn of the loop to the next. *)
Theorem currentRevenue_nondecreasing (random : nat -> Q) (inp : FinancialInputs) :
  valid_inputs inp -> unit_draws random ->
  (exists row g c,
      getGrowthFactors (business_model inp) = Row row /\
      monthlyGrowth row = Fin g /\ maxCapacity row = Fin c /\
      (forall i, 0 < g * (1 + (random i * 0.1 - 0.05))) /\
      inject_Z (expected_monthly_revenue inp) * 0.6
      <= inject_Z (expected_monthly_revenue inp) * c) /\
  (forall k : nat, (S k <= Z.to_nat (timeframe inp))%nat ->
      le (currentRevenue (state_after random k inp))
         (currentRevenue (state_after random (S k) inp)) = true).
Proof.
  intros V D.
  destruct (valid_row inp V) as [row [g [c [R [G [C [Lg Lc]]]]]]].
  assert (P := valid_revenue inp V).
  split.
  - exists row, g, c. repeat (split; [assumption|]). split.
    + intro i. now apply (growthRate_pos random g D Lg).
    + now apply cap_ge_start.
  - intros k _.
    apply (state_revenue_mono random inp row g c R G C D P Lg Lc).
Qed.

Lemma currentRevenue_nondecreasing_witness :
  valid_inputs reference_inputs /\ unit_draws mid_draws /\
  le (currentRevenue (state_after mid_draws 1 reference_inputs))
     (currentRevenue (state_after mid_draws 2 reference_inputs)) = true.
Proof.
  split; [exact reference_inputs_valid|]. split; [exact mid_draws_unit|].
  apply (proj2 (currentRevenue_nondecreasing mid_draws reference_inputs
                  reference_inputs_valid mid_draws_unit)).
  cbn. lia.
Defined.

(** ** Down-sampling *)

Section Sampling.

Context {A : Type}.

(** The ceiling of a quotient of integers. *)
Lemma Qceiling_div (n t : Z) :
  (0 < t)%Z -> Qceiling (inject_Z n / inject_Z t) = ((n + t - 1) / t)%Z.
Proof.
  intro H. unfold Qceiling.
  assert (E : - (inject_Z n / inject_Z t) == inject_Z (- n) / inject_Z t).
  { rewrite inject_Z_opp. field. change 0 with (inject_Z 0).
    rewrite inject_Z_injective. lia. }
  rewrite (Qfloor_comp _ _ E), <- Zdiv_Qdiv.
  assert (D1 := Z.div_mod (- n) t). assert (M1 := Z.mod_pos_bound (- n) t H).
  assert (D2 := Z.div_mod (n + t - 1) t).
  assert (M2 := Z.mod_pos_bound (n + t - 1) t H).
  nia.
Qed.

(** The sample rate the code computes is the specification's ceiling. *)
Lemma sampleRate_of_spec (a : list A) (t : nat) :
  (1 <= t)%nat ->
  sampleRate_of a (inject_Z (Z.of_nat t))
  = of_Z (Z.of_nat (spec_sampleRate (List.length a) t)).
Proof.
  intro H. unfold sampleRate_of, length_of, of_Z. cbn [div lit].
  assert (N : is_zero (inject_Z (Z.of_nat t)) = false).
  { apply is_zero_false. change 0 with (inject_Z 0).
    rewrite inject_Z_injective. lia. }
  rewrite N. cbn [ceil of_Z]. rewrite Qceiling_div by lia.
  do 2 f_equal. unfold spec_sampleRate.
  rewrite Nat2Z.inj_div, Nat2Z.inj_sub, Nat2Z.inj_add by lia.
  reflexivity.
Qed.

(** The specification's sample rate [s] is the least integer with
    [n <= s * t]. *)
Lemma spec_sampleRate_ceiling (n t : nat) :
  (1 <= t)%nat ->
  (n <= spec_sampleRate n t * t < n + t)%nat.
Proof.
  intro H. unfold spec_sampleRate.
  assert (D := Nat.div_mod_eq (n + t - 1) t).
  assert (M := Nat.mod_upper_bound (n + t - 1) t).
  nia.
Qed.

Lemma spec_sampleRate_pos (n t : nat) :
  (1 <= t)%nat -> (1 <= n)%nat -> (1 <= spec_sampleRate n t)%nat.
Proof.
  intros Ht Hn. assert (C := spec_sampleRate_ceiling n t Ht). nia.
Qed.

(** [index % sampleRate === 0] for a positive integer sample rate. *)
Lemma keep_index (s i : nat) :
  (1 <= s)%nat ->
  strict_eq (rem (of_Z (Z.of_nat i)) (of_Z (Z.of_nat s))) 0
  = Nat.eqb (i mod s) 0.
Proof.
  intro H. unfold of_Z. cbn [rem].
  assert (N : is_zero (inject_Z (Z.of_nat s)) = false).
  { apply is_zero_false. change 0 with (inject_Z 0).
    rewrite inject_Z_injective. lia. }
  rewrite N. unfold Qtrunc.
  assert (P : 0 <= inject_Z (Z.of_nat i) / inject_Z (Z.of_nat s)).
  { apply Qle_shift_div_l.
    - change 0 with (inject_Z 0). rewrite <- Zlt_Qlt. lia.
    - rewrite Qmult_0_l. change 0 with (inject_Z 0). rewrite <- Zle_Qle. lia. }
  rewrite (is_neg_false _ P), <- Zdiv_Qdiv.
  rewrite <- inject_Z_mult. unfold Qminus.
  rewrite <- inject_Z_opp, <- inject_Z_plus.
  assert (E : (Z.of_nat i + - (Z.of_nat s * (Z.of_nat i / Z.of_nat s))
               = Z.of_nat (i mod s))%Z).
  { rewrite Nat2Z.inj_mod. rewrite Z.mod_eq by lia. lia. }
  rewrite E. cbn [strict_eq lit].
  destruct (Nat.eqb_spec (i mod s) 0) as [Z0|NZ].
  - rewrite Z0. reflexivity.
  - destruct (Qeq_bool (inject_Z (Z.of_nat (i mod s))) 0) eqn:B; [|reflexivity].
    apply Qeq_bool_iff in B. change 0 with (inject_Z 0) in B.
    rewrite inject_Z_injective in B. lia.
Qed.

Lemma filter_from_spec (s : nat) (a : list A) (start : nat) :
  (1 <= s)%nat ->
  filter_from (fun _ index => strict_eq (rem (of_Z index) (of_Z (Z.of_nat s))) 0)
              a (Z.of_nat start)
  = map snd (filter (fun ix => Nat.eqb (fst ix mod s) 0)
               (combine (seq start (List.length a)) a)).
Proof.
  intro H. revert start. induction a as [|x rest IH]; intro start; [reflexivity|].
  cbn [filter_from List.length seq combine filter fst].
  rewrite (keep_index s start H).
  replace (Z.of_nat start + 1)%Z with (Z.of_nat (S start)) by lia.
  rewrite IH. now destruct (Nat.eqb (start mod s) 0).
Qed.

(** The code keeps the points the specification's rule keeps. *)
Lemma sample_spec (a : list A) (t : nat) :
  (1 <= t)%nat ->
  sample a (sampleRate_of a (inject_Z (Z.of_nat t)))
  = spec_sample a (spec_sampleRate (List.length a) t).
Proof.
  intro H. destruct a as [|x rest]; [reflexivity|].
  rewrite sampleRate_of_spec by exact H.
  unfold sample, filter_indexed, spec_sample.
  apply (filter_from_spec _ (x :: rest) 0).
  apply spec_sampleRate_pos; [exact H|cbn; lia].
Qed.

End Sampling.

Section SamplingCount.

Context {A : Type}.

Lemma combine_append {B : Type} (l1 l2 : list B) (a1 a2 : list A) :
  List.length l1 = List.length a1 ->
  combine (l1 ++ l2) (a1 ++ a2) = combine l1 a1 ++ combine l2 a2.
Proof.
  revert a1. induction l1 as [|y l1 IH]; intros [|x a1] H; try discriminate H.
  - reflexivity.
  - cbn [app combine]. f_equal. apply IH. now injection H.
Qed.

Lemma spec_sample_snoc (a : list A) (x : A) (s : nat) :
  spec_sample (a ++ [x]) s
  = spec_sample a s ++ (if Nat.eqb (List.length a mod s) 0 then [x] else []).
Proof.
  unfold spec_sample. rewrite length_app. cbn [List.length].
  rewrite seq_app, combine_append by now rewrite length_seq.
  rewrite filter_app, map_app. cbn [seq combine filter fst Nat.add].
  now destruct (Nat.eqb (List.length a mod s) 0).
Qed.

(** The number of points kept is the ceiling of [length / sampleRate]. *)
Lemma spec_sample_count (a : list A) (s : nat) :
  (1 <= s)%nat ->
  (List.length a <= List.length (spec_sample a s) * s < List.length a + s)%nat.
Proof.
  intro H. induction a as [|x a IH] using rev_ind; [cbn; lia|].
  rewrite spec_sample_snoc, !length_app. cbn [List.length].
  assert (D := Nat.div_mod_eq (List.length a) s).
  assert (M := Nat.mod_upper_bound (List.length a) s).
  set (n := List.length a) in *. set (c := List.length (spec_sample a s)) in *.
  set (q := (n / s)%nat) in *. set (r := (n mod s)%nat) in *.
  clearbody n c q r.
  destruct (Nat.eqb_spec r 0) as [E|E]; cbn [List.length].
  - assert (c = q) by nia. subst c r. nia.
  - assert (c = S q) by nia. subst c. nia.
Qed.

(** Down-sampling to [t] target points keeps at most [t] points. *)
Lemma spec_sample_bound (a : list A) (t : nat) :
  (1 <= t)%nat ->
  (List.length (spec_sample a (spec_sampleRate (List.length a) t)) <= t)%nat.
Proof.
  intro H. destruct a as [|x rest]; [cbn; lia|].
  set (a := x :: rest). set (n := List.length a).
  assert (N : (1 <= n)%nat) by (cbn; lia).
  assert (C := spec_sampleRate_ceiling n t H).
  assert (P := spec_sampleRate_pos n t H N).
  assert (K := spec_sample_count a (spec_sampleRate n t) P).
  fold n in K. nia.
Qed.

End SamplingCount.

Lemma filter_from_map {A B : Type} (f : A -> B) (keep : Z -> bool) (a : list A) (i : Z) :
  filter_from (fun _ index => keep index) (map f a) i
  = map f (filter_from (fun _ index => keep index) a i).
Proof.
  revert i. induction a as [|x rest IH]; intro i; [reflexivity|].
  cbn [map filter_from]. rewrite IH. now destruct (keep i).
Qed.

Lemma sample_map {A B : Type} (f : A -> B) (a : list A) (r : num) :
  sample (map f a) r = map f (sample a r).
Proof.
  apply (filter_from_map f (fun index => strict_eq (rem (of_Z index) r) 0)).
Qed.

Lemma sampleRate_of_map {A B : Type} (f : A -> B) (a : list A) (t : Q) :
  sampleRate_of (map f a) t = sampleRate_of a t.
Proof. unfold sampleRate_of, length_of. now rewrite length_map. Qed.

Lemma sample_24 {A : Type} (a : list A) :
  sample a (sampleRate_of a 24) = spec_sample a (spec_sampleRate (List.length a) 24).
Proof. apply (sample_spec a 24). lia. Qed.

Lemma sample_12 {A : Type} (a : list A) :
  sample a (sampleRate_of a 12) = spec_sample a (spec_sampleRate (List.length a) 12).
Proof. apply (sample_spec a 12). lia. Qed.

(** The sampled ROI points are the ROI points of the sampled months. *)
Lemma sampled_roiData (monthlyData : list MonthlyDataPoint) (initialInvestment : num) :
  sample (roiData_of monthlyData initialInvestment)
         (sampleRate_of (roiData_of monthlyData initialInvestment) 12)
  = roiData_of (spec_sample monthlyData (spec_sampleRate (List.length monthlyData) 12))
               initialInvestment.
Proof.
  unfold roiData_of. now rewrite sampleRate_of_map, sample_map, sample_12.
Qed.

(** A non-empty series keeps its first point at every sample rate. *)
Lemma spec_sample_first {A : Type} (x : A) (rest : list A) (s : nat) :
  exists kept, spec_sample (x :: rest) s = x :: kept.
Proof.
  unfold spec_sample. cbn [List.length seq combine filter fst].
  assert (E : (0 mod s = 0)%nat) by apply Nat.Div0.mod_0_l.
  rewrite E. cbn [Nat.eqb map snd]. eexists. reflexivity.
Qed.

(** ** Charts *)

Lemma generateRevenueCostChartData_spec (monthlyData : list MonthlyDataPoint) :
  let kept := spec_sample monthlyData (spec_sampleRate (List.length monthlyData) 24) in
  generateRevenueCostChartData monthlyData
  = mkChart (map (fun item => month_label (month item)) kept)
      [ mkDataset "Revenue" (map revenue kept);
        mkDataset "Cost" (map cost kept);
        mkDataset "Profit" (map profit kept) ].
Proof. unfold generateRevenueCostChartData. now rewrite sample_24. Qed.

Lemma generateRoiGrowthChartData_spec (monthlyData : list MonthlyDataPoint)
  (finalROI initialInvestment : num) :
  let kept := spec_sample monthlyData (spec_sampleRate (List.length monthlyData) 12) in
  generateRoiGrowthChartData monthlyData finalROI initialInvestment
  = mkChart (map (fun item => month_label (month item)) kept)
      [ mkDataset "ROI Progress"
          (map (fun item => min (roi_of initialInvestment item) finalROI) kept);
        mkDataset "Target ROI" (map (fun _ => finalROI) kept) ].
Proof.
  unfold generateRoiGrowthChartData. rewrite sampled_roiData.
  unfold roiData_of. now rewrite !map_map.
Qed.

(** Every second point of a series of 36 points with months 1..36. *)
Lemma spec_sample_36 (monthlyData : list MonthlyDataPoint) :
  List.length monthlyData = 36%nat ->
  map month monthlyData = months_upto 36 ->
  map month (spec_sample monthlyData 2) = odd_months.
Proof.
  intros L M.
  do 36 (destruct monthlyData as [|? monthlyData]; [discriminate L|]).
  destruct monthlyData; [|discriminate L].
  cbv [months_upto seq map] in M. injection M as M.
  cbv [spec_sample List.length seq combine filter fst snd Nat.modulo Nat.divmod
       Nat.eqb Nat.sub map].
  cbv [odd_months seq map].
  repeat match goal with
  | H : month _ = _ |- _ => rewrite H; clear H
  end.
  reflexivity.
Qed.

(** C6: both chart builders keep exactly the points at the 0-based
    indices that are multiples of sampleRate = ceil(n / targetPoints)
    (targetPoints is 24 for the revenue/cost chart and 12 for the
    ROI-growth chart); at most targetPoints points are kept whatever n is;
    and for n = 36 and 24 target points the rate is 2 and the 18 points of
    months 1, 3, ..., 35 are kept. *)
Theorem chart_down_sampling (monthlyData : list MonthlyDataPoint)
  (finalROI initialInvestment : num) :
  let n := List.length monthlyData in
  let kept24 := spec_sample monthlyData (spec_sampleRate n 24) in
  let kept12 := spec_sample monthlyData (spec_sampleRate n 12) in
  (n <= spec_sampleRate n 24 * 24 < n + 24)%nat /\
  (n <= spec_sampleRate n 12 * 12 < n + 12)%nat /\
  sampleRate_of monthlyData 24 = of_Z (Z.of_nat (spec_sampleRate n 24)) /\
  sampleRate_of (roiData_of monthlyData initialInvestment) 12
  = of_Z (Z.of_nat (spec_sampleRate n 12)) /\
  generateRevenueCostChartData monthlyData
  = mkChart (map (fun item => month_label (month item)) kept24)
      [ mkDataset "Revenue" (map revenue kept24);
        mkDataset "Cost" (map cost kept24);
        mkDataset "Profit" (map profit kept24) ] /\
  generateRoiGrowthChartData monthlyData finalROI initialInvestment
  = mkChart (map (fun item => month_label (month item)) kept12)
      [ mkDataset "ROI Progress"
          (map (fun item => min (roi_of initialInvestment item) finalROI) kept12);
        mkDataset "Target ROI" (map (fun _ => finalROI) kept12) ] /\
  (List.length kept24 <= 24)%nat /\
  (List.length kept12 <= 12)%nat /\
  (n = 36%nat -> map month monthlyData = months_upto 36 ->
   spec_sampleRate n 24 = 2%nat /\
   List.length kept24 = 18%nat /\
   map month kept24 = odd_months /\
   labels (generateRevenueCostChartData monthlyData) = map month_label odd_months).
Proof.
  intros n kept24 kept12.
  split; [apply spec_sampleRate_ceiling; lia|].
  split; [apply spec_sampleRate_ceiling; lia|].
  split; [apply (sampleRate_of_spec monthlyData 24); lia|].
  split.
  { unfold roiData_of. rewrite sampleRate_of_map.
    apply (sampleRate_of_spec monthlyData 12). lia. }
  split; [apply generateRevenueCostChartData_spec|].
  split; [apply generateRoiGrowthChartData_spec|].
  split; [apply spec_sample_bound; lia|].
  split; [apply spec_sample_bound; lia|].
  intros L M.
  assert (R : spec_sampleRate n 24 = 2%nat) by (rewrite L; reflexivity).
  assert (K : map month kept24 = odd_months).
  { subst kept24. rewrite R. now apply spec_sample_36. }
  split; [exact R|]. split; [|split; [exact K|]].
  - rewrite <- (length_map month), K. reflexivity.
  - rewrite generateRevenueCostChartData_spec. cbn [labels].
    fold n. fold kept24. now rewrite <- K, map_map.
Qed.

Lemma chart_down_sampling_witness :
  let monthlyData := generateDynamicMonthlyData mid_draws three_year_inputs in
  List.length monthlyData = 36%nat /\
  map month monthlyData = months_upto 36 /\
  labels (generateRevenueCostChartData monthlyData) = map month_label odd_months.
Proof.
  assert (L : List.length (generateDynamicMonthlyData mid_draws three_year_inputs)
              = 36%nat) by (vm_compute; reflexivity).
  assert (M : map month (generateDynamicMonthlyData mid_draws three_year_inputs)
              = months_upto 36) by (vm_compute; reflexivity).
  cbv zeta. split; [exact L|]. split; [exact M|].
  destruct (chart_down_sampling
              (generateDynamicMonthlyData mid_draws three_year_inputs) 0 100000)
    as (_ & _ & _ & _ & _ & _ & _ & _ & H).
  apply (H L M).
Defined.







(** C10: both chart builders keep the first point (0-based index 0,
    month 1) of every non-empty series, so that the labels and every
    dataset of both charts are non-empty. *)
Theorem charts_keep_first_point (first : MonthlyDataPoint)
  (rest : list MonthlyDataPoint) (finalROI initialInvestment : num) :
  let monthlyData := first :: rest in
  let revenueCost := generateRevenueCostChartData monthlyData in
  let roiGrowth := generateRoiGrowthChartData monthlyData finalROI initialInvestment in
  (exists kept, sample monthlyData (sampleRate_of monthlyData 24) = first :: kept) /\
  (exists kept,
      sample (roiData_of monthlyData initialInvestment)
             (sampleRate_of (roiData_of monthlyData initialInvestment) 12)
      = mkRoiPoint (month first) (roi_of initialInvestment first) :: kept) /\
  (exists ls, labels revenueCost = month_label (month first) :: ls) /\
  (exists ls, labels roiGrowth = month_label (month first) :: ls) /\
  (forall d, In d (datasets revenueCost) -> data d <> []) /\
  (forall d, In d (datasets roiGrowth) -> data d <> []).
Proof.
  intros monthlyData revenueCost roiGrowth.
  destruct (spec_sample_first first rest
              (spec_sampleRate (List.length monthlyData) 24)) as [k24 E24].
  destruct (spec_sample_first first rest
              (spec_sampleRate (List.length monthlyData) 12)) as [k12 E12].
  fold monthlyData in E24, E12.
  split; [exists k24; now rewrite sample_24|].
  split.
  { rewrite sampled_roiData, E12. eexists. reflexivity. }
  subst revenueCost roiGrowth.
  rewrite generateRevenueCostChartData_spec, generateRoiGrowthChartData_spec.
  cbv zeta. rewrite E24, E12. cbn [labels datasets map].
  split; [eexists; reflexivity|]. split; [eexists; reflexivity|].
  split; intros d H; cbn [In] in H;
    repeat (destruct H as [H|H]; [subst d; discriminate|]); contradiction.
Qed.

(** * Further properties of the code *)

(** ** Seasonality *)

Lemma rem_shift_year (a : Z) : (0 <= a)%Z -> Z.rem (a + 12) 12 = Z.rem a 12.
Proof.
  intro H. rewrite !Z.rem_mod_nonneg by lia.
  replace (a + 12)%Z with (a + 1 * 12)%Z by lia. apply Z_mod_plus_full.
Qed.

(** X1: for every month from 1 on, the seasonal multiplier is an entry of
    the table (the key ((month - 1) % 12) + 1 is between 1 and 12, so the
    [|| 1.0] fallback is not used), and the multiplier repeats with
    period 12. *)
Theorem getSeasonalMultiplier_periodic (month : Z) :
  (1 <= month)%Z ->
  (1 <= Z.rem (month - 1) 12 + 1 <= 12)%Z /\
  lookupZ seasonalPatterns (Z.rem (month - 1) 12 + 1)
  = Some (getSeasonalMultiplier month) /\
  getSeasonalMultiplier (month + 12) = getSeasonalMultiplier month.
Proof.
  intro H.
  assert (B : (0 <= Z.rem (month - 1) 12 < 12)%Z).
  { rewrite Z.rem_mod_nonneg by lia. apply Z.mod_pos_bound. lia. }
  split; [lia|]. split.
  - unfold getSeasonalMultiplier.
    set (r := Z.rem (month - 1) 12) in *. clearbody r.
    assert (C : (r = 0 \/ r = 1 \/ r = 2 \/ r = 3 \/ r = 4 \/ r = 5 \/
                 r = 6 \/ r = 7 \/ r = 8 \/ r = 9 \/ r = 10 \/ r = 11)%Z) by lia.
    repeat (destruct C as [C|C]; [subst r; reflexivity|]).
    subst r; reflexivity.
  - unfold getSeasonalMultiplier.
    replace (month + 12 - 1)%Z with (month - 1 + 12)%Z by lia.
    now rewrite rem_shift_year by lia.
Qed.

Lemma getSeasonalMultiplier_periodic_witness :
  getSeasonalMultiplier (7 + 12) = getSeasonalMultiplier 7.
Proof.
  apply (proj2 (proj2 (getSeasonalMultiplier_periodic 7 ltac:(lia)))).
Defined.

(** X2: for a month below 1 the key is below 1 unless month - 1 is a
    multiple of 12; the table has no such key, and the multiplier falls
    back to 1.0. *)
Theorem getSeasonalMultiplier_fallback (month : Z) :
  (month <= 0)%Z -> Z.rem (month - 1) 12 <> 0%Z ->
  getSeasonalMultiplier month = Fin 1.0.
Proof.
  intros H N. unfold getSeasonalMultiplier.
  assert (B : (-12 < Z.rem (month - 1) 12 <= 0)%Z).
  { assert (A := Z.rem_bound_abs (month - 1) 12).
    assert (S := Z.rem_nonpos (month - 1) 12). lia. }
  set (r := Z.rem (month - 1) 12) in *. clearbody r.
  unfold seasonalPatterns. cbn [lookupZ].
  repeat match goal with
  | |- context [Z.eqb ?k (r + 1)] => destruct (Z.eqb_spec k (r + 1)); [lia|]
  end.
  reflexivity.
Qed.

Lemma getSeasonalMultiplier_fallback_witness :
  getSeasonalMultiplier (-3) = Fin 1.0.
Proof.
  apply (getSeasonalMultiplier_fallback (-3)); [lia|discriminate].
Defined.

(** ** The draws of the generator *)

Section Draws.

Variable inp : FinancialInputs.

Lemma grow_draws (random : nat -> Q) (v : FactorsValue) (st : LoopState) :
  snd (grow random inp v st)
  = if (1 <? st_month st)%Z then S (draws st) else draws st.
Proof. unfold grow. now destruct (1 <? st_month st)%Z. Qed.

Lemma loop_body_draws (random : nat -> Q) (v : FactorsValue) (st : LoopState) :
  draws (loop_body random inp v st) = S (snd (grow random inp v st)).
Proof. unfold loop_body. now destruct (grow random inp v st). Qed.

(** The turn for month 1 makes one call of [Math.random], every later
    turn two. *)
Lemma state_draws (random : nat -> Q) (n : nat) :
  draws (state_after random n inp) = (2 * n - 1)%nat.
Proof.
  induction n as [|n IH]; [reflexivity|].
  rewrite state_after_S, loop_body_draws, grow_draws, state_month, IH.
  destruct (Z.ltb_spec 1 (Z.of_nat n + 1)); lia.
Qed.

(** The index of the draw that sets the cost of month [k + 1]. *)
Lemma cost_draw (random : nat -> Q) (k : nat) :
  snd (grow random inp (getGrowthFactors (business_model inp))
         (state_after random k inp)) = (2 * k)%nat.
Proof.
  rewrite grow_draws, state_month, state_draws.
  destruct (Z.ltb_spec 1 (Z.of_nat k + 1)); lia.
Qed.

Lemma loop_body_ext (random random' : nat -> Q) (v : FactorsValue) (st : LoopState) :
  ((1 < st_month st)%Z -> random (draws st) = random' (draws st)) ->
  random (snd (grow random inp v st)) = random' (snd (grow random inp v st)) ->
  loop_body random inp v st = loop_body random' inp v st.
Proof.
  intros H0 H1. rewrite grow_draws in H1.
  unfold loop_body, grow. destruct (Z.ltb_spec 1 (st_month st)).
  - rewrite (H0 H), H1. reflexivity.
  - rewrite H1. reflexivity.
Qed.

Lemma state_after_ext (random random' : nat -> Q) (n : nat) :
  same_draws (2 * n - 1) random random' ->
  state_after random n inp = state_after random' n inp.
Proof.
  induction n as [|n IH]; intro H; [reflexivity|].
  assert (E : state_after random n inp = state_after random' n inp).
  { apply IH. intros i Hi. apply H. lia. }
  rewrite !state_after_S, <- E. apply loop_body_ext.
  - rewrite state_month, state_draws. intro M. apply H. lia.
  - rewrite cost_draw. apply H. lia.
Qed.

(** X3: a run over [n] months calls [Math.random] exactly [2 n - 1]
    times (once for month 1, twice for every later month), and the series
    depends on no other draw: two sequences of draws that agree on the
    first [2 n - 1] draws give the same series. *)
Theorem generateDynamicMonthlyData_draws (random random' : nat -> Q) :
  let n := Z.to_nat (timeframe inp) in
  draws (state_after random n inp) = (2 * n - 1)%nat /\
  (same_draws (2 * n - 1) random random' ->
   generateDynamicMonthlyData random inp = generateDynamicMonthlyData random' inp).
Proof.
  cbv zeta. split; [apply state_draws|].
  intro H. unfold generateDynamicMonthlyData. now rewrite (state_after_ext _ _ _ H).
Qed.

End Draws.

Lemma generateDynamicMonthlyData_draws_witness :
  generateDynamicMonthlyData mid_draws small_inputs
  = generateDynamicMonthlyData (fun i => if (i <? 3)%nat then 0.5 else 0.9) small_inputs.
Proof.
  apply (proj2 (generateDynamicMonthlyData_draws small_inputs mid_draws
                  (fun i => if (i <? 3)%nat then 0.5 else 0.9))).
  intros i Hi. cbn in Hi. unfold mid_draws.
  destruct i as [|[|[|i]]]; try reflexivity. lia.
Defined.

(** ** The first month, and labels that resolve to no row *)

Lemma add_NaN_r (a : num) : (a + NaN)%js = NaN.
Proof. now destruct a. Qed.

Lemma mul_NaN_r (a : num) : (a * NaN)%js = NaN.
Proof. now destruct a. Qed.

Lemma fold_add_NaN {A : Type} (f : A -> num) (l : list A) :
  fold_left (fun sum x => (sum + f x)%js) l NaN = NaN.
Proof. induction l as [|x l IH]; [reflexivity|exact IH]. Qed.

(** One NaN among the summands makes the total NaN. *)
Lemma fold_add_has_NaN {A : Type} (f : A -> num) (l1 l2 : list A) (x : A) (acc : num) :
  f x = NaN ->
  fold_left (fun sum x => (sum + f x)%js) (l1 ++ x :: l2) acc = NaN.
Proof.
  intro H. rewrite fold_left_app. cbn [fold_left].
  rewrite H, add_NaN_r. apply fold_add_NaN.
Qed.

Lemma getGrowthFactors_inherited_key (bm : option string) :
  In (property_key bm) object_prototype_keys ->
  getGrowthFactors bm = Inherited (property_key bm).
Proof.
  destruct bm as [s|]; cbn [property_key]; intro H.
  - now apply getGrowthFactors_inherited.
  - cbv [object_prototype_keys In] in H.
    repeat (destruct H as [H|H]; [discriminate H|]). contradiction.
Qed.

Section FirstMonth.

Variable random : nat -> Q.
Variable inp : FinancialInputs.

Local Notation "'state' k" := (state_after random k inp) (at level 10, k at level 9).
Local Notation "'pushed' k" := (pushed_point inp (state k) (state (S k)))
  (at level 10, k at level 9).



(** *** A label that names a member of [Object.prototype] *)

Hypothesis label_inherited :
  In (property_key (business_model inp)) object_prototype_keys.

Lemma inherited_revenue (k : nat) : currentRevenue (state (S (S k))) = NaN.
Proof.
  rewrite state_after_S, loop_body_revenue.
  rewrite (getGrowthFactors_inherited_key _ label_inherited).
  unfold grow. rewrite state_month.
  destruct (Z.ltb_spec 1 (Z.of_nat (S k) + 1)); [|lia].
  cbn [fst factors_monthlyGrowth factors_maxCapacity mul].
  now rewrite add_NaN_r, mul_NaN_r.
Qed.

Lemma inherited_point (k : nat) :
  revenue (pushed (S k)) = NaN /\ profit (pushed (S k)) = NaN /\
  cumulativeProfit (pushed (S k)) = NaN /\ revenueGrowth (pushed (S k)) = NaN /\
  capacityUtilization (pushed (S k)) = NaN.
Proof.
  unfold pushed_point.
  cbn [revenue profit cumulativeProfit revenueGrowth capacityUtilization].
  rewrite inherited_revenue. cbn [mul sub div round].
  rewrite state_data_S, next_cumulativeProfit_later, add_NaN_r.
  repeat split; reflexivity.
Qed.

(** X6: when the business-model label names a member of
    [Object.prototype] (such as "toString" or "constructor"), the lookup
    returns that member instead of the default row, and for every sequence
    of draws every point from month 2 on has NaN as its revenue, profit,
    cumulative profit, revenue growth and capacity utilization; so the
    total revenue, the net profit and the ROI percentage that the
    controller reduces from a series of two months or more are NaN. *)
Theorem inherited_label_series :
  getGrowthFactors (business_model inp)
  = Inherited (property_key (business_model inp)) /\
  (forall m : nat, (2 <= m <= Z.to_nat (timeframe inp))%nat ->
     exists p,
       point_of_month (generateDynamicMonthlyData random inp) m = Some p /\
       revenue p = NaN /\ profit p = NaN /\ cumulativeProfit p = NaN /\
       revenueGrowth p = NaN /\ capacityUtilization p = NaN) /\
  ((2 <= timeframe inp)%Z ->
     total_revenue (generateDynamicMonthlyData random inp) = NaN /\
     net_profit_of (generateDynamicMonthlyData random inp) = NaN /\
     roi_percentage_of (generateDynamicMonthlyData random inp)
       (initial_investment inp) = NaN).
Proof.
  split; [now apply getGrowthFactors_inherited_key|]. split.
  - intros m Hm. destruct m as [|[|k]]; try lia.
    eexists. split; [apply point_of_month_generated; lia|].
    cbn [Nat.sub]. apply inherited_point.
  - intro Ht.
    assert (T : total_revenue (generateDynamicMonthlyData random inp) = NaN).
    { unfold total_revenue, generateDynamicMonthlyData.
      destruct (state_data_prefix random inp 2 (Z.to_nat (timeframe inp)))
        as [rest E]; [lia|].
      rewrite E, state_data_S, <- app_assoc. cbn [app].
      apply (fold_add_has_NaN revenue). apply inherited_point. }
    unfold roi_percentage_of, net_profit_of. rewrite T.
    repeat split; reflexivity.
Qed.

End FirstMonth.


Lemma inherited_label_series_witness :
  getGrowthFactors (Some "toString"%string) = Inherited "toString".
Proof.
  apply (proj1 (inherited_label_series mid_draws
                  (mkInputs 100000 20000 12000 12 (Some "toString"%string))
                  ltac:(cbv; tauto))).
Defined.

(** ** Payback period: what is returned *)

Lemma first_payback_index_some (monthlyData : list MonthlyDataPoint) (start i : Z) :
  first_payback_index monthlyData start = Some i ->
  exists (j : nat) (q : MonthlyDataPoint),
    i = (start + Z.of_nat j)%Z /\ nth_error monthlyData j = Some q /\ paid q /\
    forall j' q', (j' < j)%nat -> nth_error monthlyData j' = Some q' -> unpaid q'.
Proof.
  revert start. induction monthlyData as [|x rest IH]; intros start H; [discriminate H|].
  cbn [first_payback_index] in H.
  destruct (ge (cumulativeProfit x) 0) eqn:G.
  - injection H as <-. exists 0%nat, x.
    split; [lia|]. split; [reflexivity|]. split; [exact G|].
    intros j' q' Hj. lia.
  - destruct (IH _ H) as (j & q & E & N & Pq & B).
    exists (S j), q. split; [lia|]. split; [exact N|]. split; [exact Pq|].
    intros [|j'] q' Hj Hn.
    + injection Hn as <-. exact G.
    + apply (B j' q'); [lia|exact Hn].
Qed.

Lemma first_payback_index_unpaid (monthlyData : list MonthlyDataPoint) (start : Z) :
  first_payback_index monthlyData start = None ->
  forall q, In q monthlyData -> unpaid q.
Proof.
  revert start. induction monthlyData as [|x rest IH]; intros start H q I; [destruct I|].
  cbn [first_payback_index] in H.
  destruct (ge (cumulativeProfit x) 0) eqn:G; [discriminate H|].
  destruct I as [<-|I]; [exact G|]. now apply (IH _ H).
Qed.

(** X11: the payback estimator always returns m / 12 for a whole number
    of months m that is at most the length of the series, and at least 1
    when the series is not empty (0 for the empty series); every month
    before m is unpaid, and month m itself is paid unless no month of the
    series is (then m is the length of the series). *)
Theorem calculateDynamicPaybackPeriod_range (monthlyData : list MonthlyDataPoint)
  (initialInvestment : num) :
  exists m : nat,
    calculateDynamicPaybackPeriod monthlyData initialInvestment
    = Fin (inject_Z (Z.of_nat m) / 12) /\
    (m <= List.length monthlyData)%nat /\
    (monthlyData <> [] -> (1 <= m)%nat) /\
    (forall j q, (j + 1 < m)%nat -> nth_error monthlyData j = Some q -> unpaid q) /\
    ((exists q, point_of_month monthlyData m = Some q /\ paid q) \/
     (m = List.length monthlyData /\ forall q, In q monthlyData -> unpaid q)).
Proof.
  unfold calculateDynamicPaybackPeriod.
  destruct (first_payback_index monthlyData 0) as [i|] eqn:F.
  - destruct (first_payback_index_some _ _ _ F) as (j & q & -> & N & Pq & B).
    exists (S j).
    split.
    { replace (0 + Z.of_nat j + 1)%Z with (Z.of_nat (S j)) by lia. reflexivity. }
    assert (L : (j < List.length monthlyData)%nat).
    { apply nth_error_Some. rewrite N. discriminate. }
    split; [lia|]. split; [lia|]. split.
    + intros j' q' Hj. apply B. lia.
    + left. exists q. split; [|exact Pq].
      unfold point_of_month.
      replace (Z.of_nat (S j) - 1)%Z with (Z.of_nat j) by lia.
      now rewrite elem_at_nat.
  - exists (List.length monthlyData).
    assert (U := first_payback_index_unpaid _ _ F).
    split; [reflexivity|]. split; [lia|]. split.
    + destruct monthlyData; [congruence|cbn; lia].
    + split.
      * intros j q _ N. apply U. now apply nth_error_In in N.
      * right. split; [reflexivity|exact U].
Qed.

Lemma calculateDynamicPaybackPeriod_range_witness :
  exists m : nat,
    calculateDynamicPaybackPeriod break_even_series 1000
    = Fin (inject_Z (Z.of_nat m) / 12) /\ (1 <= m <= 6)%nat.
Proof.
  destruct (calculateDynamicPaybackPeriod_range break_even_series 1000)
    as (m & E & L & P & _).
  exists m. split; [exact E|]. split; [apply P; discriminate|exact L].
Defined.

(** ** Charts: alignment, short and empty series *)

(** X12: in both charts every dataset has exactly one value per label:
    the three datasets of the revenue/cost chart and the two datasets of
    the ROI-growth chart are as long as the list of labels. *)
Theorem chart_datasets_aligned (monthlyData : list MonthlyDataPoint)
  (finalROI initialInvestment : num) :
  let revenueCost := generateRevenueCostChartData monthlyData in
  let roiGrowth := generateRoiGrowthChartData monthlyData finalROI initialInvestment in
  map label (datasets revenueCost) = ["Revenue"; "Cost"; "Profit"]%string /\
  map label (datasets roiGrowth) = ["ROI Progress"; "Target ROI"]%string /\
  (forall d, In d (datasets revenueCost) ->
     List.length (data d) = List.length (labels revenueCost)) /\
  (forall d, In d (datasets roiGrowth) ->
     List.length (data d) = List.length (labels roiGrowth)).
Proof.
  cbv zeta.
  rewrite generateRevenueCostChartData_spec, generateRoiGrowthChartData_spec.
  cbv zeta. cbn [datasets labels map label].
  split; [reflexivity|]. split; [reflexivity|].
  split; intros d H; cbn [In] in H;
    repeat (destruct H as [H|H]; [subst d; cbn [data]; now rewrite !length_map|]);
    contradiction.
Qed.

Lemma spec_sampleRate_short (n t : nat) :
  (1 <= n <= t)%nat -> spec_sampleRate n t = 1%nat.
Proof.
  intro H. assert (C := spec_sampleRate_ceiling n t ltac:(lia)). nia.
Qed.

Lemma spec_sample_all {A : Type} (a : list A) : spec_sample a 1 = a.
Proof.
  induction a as [|x a IH] using rev_ind; [reflexivity|].
  rewrite spec_sample_snoc, IH, Nat.mod_1_r. reflexivity.
Qed.

(** X13: a series of 1 to 24 points is not down-sampled by the
    revenue/cost chart, and a series of 1 to 12 points is not down-sampled
    by the ROI-growth chart: the chart has one label per month and every
    dataset holds the values of all the months, in order. *)
Theorem short_series_kept (monthlyData : list MonthlyDataPoint)
  (finalROI initialInvestment : num) :
  ((1 <= List.length monthlyData <= 24)%nat ->
   generateRevenueCostChartData monthlyData
   = mkChart (map (fun item => month_label (month item)) monthlyData)
       [ mkDataset "Revenue" (map revenue monthlyData);
         mkDataset "Cost" (map cost monthlyData);
         mkDataset "Profit" (map profit monthlyData) ]) /\
  ((1 <= List.length monthlyData <= 12)%nat ->
   generateRoiGrowthChartData monthlyData finalROI initialInvestment
   = mkChart (map (fun item => month_label (month item)) monthlyData)
       [ mkDataset "ROI Progress"
           (map (fun item => min (roi_of initialInvestment item) finalROI) monthlyData);
         mkDataset "Target ROI" (map (fun _ => finalROI) monthlyData) ]).
Proof.
  split; intro H.
  - rewrite generateRevenueCostChartData_spec. cbv zeta.
    now rewrite (spec_sampleRate_short _ 24 H), spec_sample_all.
  - rewrite generateRoiGrowthChartData_spec. cbv zeta.
    now rewrite (spec_sampleRate_short _ 12 H), spec_sample_all.
Qed.

Lemma short_series_kept_witness :
  labels (generateRevenueCostChartData break_even_series)
  = map month_label [1; 2; 3; 4; 5; 6]%Z.
Proof.
  rewrite (proj1 (short_series_kept break_even_series 0 1000)).
  - reflexivity.
  - cbn. lia.
Defined.

(** X14: for a timeframe below 1 the loop makes no turn: the series is
    empty for every sequence of draws, the totals and the net profit are
    0, the payback period is 0, and both charts have no label and only
    empty datasets. *)
Theorem empty_series (random : nat -> Q) (inp : FinancialInputs)
  (finalROI initialInvestment : num) :
  (timeframe inp <= 0)%Z ->
  let monthlyData := generateDynamicMonthlyData random inp in
  monthlyData = [] /\
  total_revenue monthlyData = Fin 0 /\
  total_operating_cost monthlyData = Fin 0 /\
  strict_eq (net_profit_of monthlyData) 0 = true /\
  strict_eq (calculateDynamicPaybackPeriod monthlyData initialInvestment) 0 = true /\
  labels (generateRevenueCostChartData monthlyData) = [] /\
  labels (generateRoiGrowthChartData monthlyData finalROI initialInvestment) = [] /\
  (forall d, In d (datasets (generateRevenueCostChartData monthlyData)) -> data d = []) /\
  (forall d,
     In d (datasets (generateRoiGrowthChartData monthlyData finalROI initialInvestment)) ->
     data d = []).
Proof.
  intros H monthlyData.
  assert (E : monthlyData = []).
  { subst monthlyData. unfold generateDynamicMonthlyData.
    replace (Z.to_nat (timeframe inp)) with 0%nat by lia. reflexivity. }
  rewrite E. repeat (split; [reflexivity|]).
  split; intros d I; cbn in I;
    repeat (destruct I as [I|I]; [subst d; reflexivity|]); contradiction.
Qed.

Lemma empty_series_witness :
  generateDynamicMonthlyData mid_draws (mkInputs 100000 20000 12000 (-5) None) = [].
Proof.
  apply (proj1 (empty_series mid_draws (mkInputs 100000 20000 12000 (-5) None) 0 0
                  ltac:(cbn; lia))).
Defined.

(** ** Performance metrics: the two efficiency ratios *)

(** X15: the profit margin is never NaN, whatever the stored result is;
    when the net profit is finite and the denominator
    expected_monthly_revenue * timeframe is finite and not zero, it is the
    quotient net_profit / denominator * 100; when the denominator is zero
    it is 0 for a zero net profit and an infinity for any other finite net
    profit. *)
Theorem profitMargin_cases (r : Metrics.RoiResult) :
  let denominator :=
    (Metrics.expected_monthly_revenue (Metrics.financialDetails r) *
     Metrics.timeframe (Metrics.financialDetails r))%js in
  let margin :=
    Metrics.profitMargin (Metrics.efficiency (Metrics.generatePerformanceMetrics r)) in
  margin <> NaN /\
  (forall p d, Metrics.net_profit r = Fin p -> denominator = Fin d -> ~ d == 0 ->
     strict_eq margin (Fin (p / d * 100)) = true) /\
  (forall p d, Metrics.net_profit r = Fin p -> denominator = Fin d -> d == 0 ->
     (p == 0 -> margin = Fin 0) /\ (~ p == 0 -> margin = PInf \/ margin = NInf)).
Proof.
  cbv zeta. unfold Metrics.generatePerformanceMetrics.
  cbn [Metrics.efficiency Metrics.profitMargin].
  set (den := (Metrics.expected_monthly_revenue (Metrics.financialDetails r) *
               Metrics.timeframe (Metrics.financialDetails r))%js).
  split; [|split].
  - unfold or_else.
    destruct (Metrics.net_profit r / den * 100)%js as [| | |v] eqn:E;
      cbn [truthy]; try discriminate.
    destruct (negb (is_zero v)); discriminate.
  - intros p d -> -> N. cbn [div]. apply is_zero_false in N. rewrite N.
    unfold lit. cbn [mul]. unfold or_else. cbn [truthy].
    destruct (is_zero (p / d * 100)) eqn:Z0; cbn [negb].
    + apply strict_eq_fin. apply is_zero_true in Z0. now rewrite Z0.
    + apply strict_eq_fin. reflexivity.
  - intros p d -> -> Z0. cbn [div]. apply is_zero_true in Z0. rewrite Z0.
    split; intro Hp.
    + apply is_zero_true in Hp. rewrite Hp. reflexivity.
    + apply is_zero_false in Hp. rewrite Hp.
      destruct (is_neg p); [right|left]; reflexivity.
Qed.

Lemma profitMargin_cases_witness :
  strict_eq
    (Metrics.profitMargin
       (Metrics.efficiency
          (Metrics.generatePerformanceMetrics
             (Metrics.mkResult (Metrics.mkDetails 100000 20000 12000 12) 36 36000 2))))
    (Fin (36000 / 240000 * 100)) = true.
Proof.
  apply (proj1 (proj2 (profitMargin_cases
                         (Metrics.mkResult (Metrics.mkDetails 100000 20000 12000 12)
                            36 36000 2)))
           36000 (20000 * 12)).
  - reflexivity.
  - reflexivity.
  - intro H. discriminate H.
Defined.

(** X16: the investment efficiency has no guard: for a finite net profit
    and a finite, nonzero initial investment it is
    net_profit / initial_investment * 100, and for an initial investment of
    zero it is NaN when the net profit is zero and an infinity otherwise,
    never a finite number. *)
Theorem investmentEfficiency_cases (r : Metrics.RoiResult) (p i : Q) :
  Metrics.net_profit r = Fin p ->
  Metrics.initial_investment (Metrics.financialDetails r) = Fin i ->
  let efficiency :=
    Metrics.investmentEfficiency
      (Metrics.efficiency (Metrics.generatePerformanceMetrics r)) in
  (~ i == 0 -> efficiency = Fin (p / i * 100)) /\
  (i == 0 -> p == 0 -> efficiency = NaN) /\
  (i == 0 -> ~ p == 0 -> efficiency = PInf \/ efficiency = NInf).
Proof.
  intros Hp Hi. cbv zeta. unfold Metrics.generatePerformanceMetrics.
  cbn [Metrics.efficiency Metrics.investmentEfficiency].
  rewrite Hp, Hi. cbn [div].
  split; [|split].
  - intro N. apply is_zero_false in N. now rewrite N.
  - intros Z0 Zp. apply is_zero_true in Z0, Zp. now rewrite Z0, Zp.
  - intros Z0 Np. apply is_zero_true in Z0. apply is_zero_false in Np.
    rewrite Z0, Np. destruct (is_neg p); [right|left]; reflexivity.
Qed.

Lemma investmentEfficiency_cases_witness :
  Metrics.investmentEfficiency
    (Metrics.efficiency
       (Metrics.generatePerformanceMetrics
          (Metrics.mkResult (Metrics.mkDetails 100000 20000 12000 12) 36 36000 2)))
  = Fin (36000 / 100000 * 100).
Proof.
  apply (proj1 (investmentEfficiency_cases
                  (Metrics.mkResult (Metrics.mkDetails 100000 20000 12000 12) 36 36000 2)
                  36000 100000 eq_refl eq_refl)).
  intro H. discriminate H.
Defined.

(** ** The payback period of a generated series *)

(** X17: for every input with a timeframe of at least 1, every business
    model and every sequence of draws, the payback period the controller
    computes from the generated series is m / 12 for a whole number of
    months m between 1 and the timeframe: it is never 0 and never beyond
    the horizon. *)
Theorem generated_payback_within_horizon (random : nat -> Q) (inp : FinancialInputs) :
  (1 <= timeframe inp)%Z ->
  exists m : Z,
    calculateDynamicPaybackPeriod (generateDynamicMonthlyData random inp)
      (of_Z (initial_investment inp))
    = Fin (inject_Z m / 12) /\
    (1 <= m <= timeframe inp)%Z.
Proof.
  intro H. unfold calculateDynamicPaybackPeriod.
  assert (L : List.length (generateDynamicMonthlyData random inp)
              = Z.to_nat (timeframe inp)) by apply state_data_length.
  destruct (first_payback_index (generateDynamicMonthlyData random inp) 0)
    as [i|] eqn:F.
  - destruct (first_payback_index_some _ _ _ F) as (j & q & -> & N & _).
    assert (B : (j < List.length (generateDynamicMonthlyData random inp))%nat).
    { apply nth_error_Some. rewrite N. discriminate. }
    exists (0 + Z.of_nat j + 1)%Z. split; [reflexivity|lia].
  - exists (length_of (generateDynamicMonthlyData random inp)).
    split; [reflexivity|]. unfold length_of. lia.
Qed.

Lemma generated_payback_within_horizon_witness :
  exists m : Z,
    calculateDynamicPaybackPeriod (generateDynamicMonthlyData mid_draws reference_inputs)
      (of_Z 100000)
    = Fin (inject_Z m / 12) /\
    (1 <= m <= 12)%Z.
Proof.
  apply (generated_payback_within_horizon mid_draws reference_inputs).
  cbn. lia.
Defined.

(** * The generator in binary64 arithmetic *)

(** ** The loop *)

Section B64Facts.

Variable random : nat -> B64.f64.
Variable inp : B64.FinancialInputs.

Local Notation "'gf'" := (B64.getGrowthFactors (B64.business_model inp)).
Local Notation "'state' k" := (B64.state_after random k inp) (at level 10, k at level 9).
Local Notation "'pushed' k" := (B64.pushed_point inp (state k) (state (S k)))
  (at level 10, k at level 9).

Lemma b64_state_after_S (k : nat) :
  state (S k) = B64.loop_body random inp gf (state k).
Proof. reflexivity. Qed.

Lemma b64_loop_body_month (v : B64.FactorsValue) (st : B64.LoopState) :
  B64.st_month (B64.loop_body random inp v st) = (B64.st_month st + 1)%Z.
Proof. unfold B64.loop_body. now destruct (B64.grow random inp v st). Qed.

Lemma b64_loop_body_revenue (v : B64.FactorsValue) (st : B64.LoopState) :
  B64.currentRevenue (B64.loop_body random inp v st) = fst (B64.grow random inp v st).
Proof. unfold B64.loop_body. now destruct (B64.grow random inp v st). Qed.

Lemma b64_loop_body_cost (v : B64.FactorsValue) (st : B64.LoopState) :
  B64.currentCost (B64.loop_body random inp v st)
  = B64.mul (B64.monthly_operating_cost inp)
      (B64.add (B64.of_Z 1) (B64.variance (random (snd (B64.grow random inp v st))))).
Proof. unfold B64.loop_body. now destruct (B64.grow random inp v st). Qed.

Lemma b64_loop_body_draws (v : B64.FactorsValue) (st : B64.LoopState) :
  B64.draws (B64.loop_body random inp v st) = S (snd (B64.grow random inp v st)).
Proof. unfold B64.loop_body. now destruct (B64.grow random inp v st). Qed.

Lemma b64_grow_draws (v : B64.FactorsValue) (st : B64.LoopState) :
  snd (B64.grow random inp v st)
  = if (1 <? B64.st_month st)%Z then S (B64.draws st) else B64.draws st.
Proof. unfold B64.grow. now destruct (1 <? B64.st_month st)%Z. Qed.

Lemma b64_loop_body_push (v : B64.FactorsValue) (st : B64.LoopState) :
  B64.monthlyData (B64.loop_body random inp v st)
  = B64.monthlyData st ++ [B64.pushed_point inp st (B64.loop_body random inp v st)].
Proof.
  unfold B64.pushed_point. rewrite b64_loop_body_revenue, b64_loop_body_cost.
  unfold B64.loop_body. now destruct (B64.grow random inp v st).
Qed.

Lemma b64_state_data_S (k : nat) :
  B64.monthlyData (state (S k)) = B64.monthlyData (state k) ++ [pushed k].
Proof. rewrite b64_state_after_S at 1. now rewrite b64_loop_body_push. Qed.

Lemma b64_state_month (k : nat) : B64.st_month (state k) = (Z.of_nat k + 1)%Z.
Proof.
  induction k as [|k IH]; [reflexivity|].
  rewrite b64_state_after_S, b64_loop_body_month, IH. lia.
Qed.

Lemma b64_state_data_length (k : nat) : List.length (B64.monthlyData (state k)) = k.
Proof.
  induction k as [|k IH]; [reflexivity|].
  rewrite b64_state_data_S, length_app, IH. cbn. lia.
Qed.

Lemma b64_state_draws (n : nat) : B64.draws (state n) = (2 * n - 1)%nat.
Proof.
  induction n as [|n IH]; [reflexivity|].
  rewrite b64_state_after_S, b64_loop_body_draws, b64_grow_draws, b64_state_month, IH.
  destruct (Z.ltb_spec 1 (Z.of_nat n + 1)); lia.
Qed.

Lemma b64_cost_draw (k : nat) :
  snd (B64.grow random inp gf (state k)) = (2 * k)%nat.
Proof.
  rewrite b64_grow_draws, b64_state_month, b64_state_draws.
  destruct (Z.ltb_spec 1 (Z.of_nat k + 1)); lia.
Qed.

Lemma b64_state_data_prefix (k n : nat) :
  (k <= n)%nat ->
  exists rest, B64.monthlyData (state n) = B64.monthlyData (state k) ++ rest.
Proof.
  induction 1 as [|n H [rest IH]].
  - exists []. now rewrite app_nil_r.
  - exists (rest ++ [pushed n]). now rewrite b64_state_data_S, IH, <- app_assoc.
Qed.

Lemma b64_state_data_nth (k n : nat) :
  (k < n)%nat -> nth_error (B64.monthlyData (state n)) k = Some (pushed k).
Proof.
  intro H. destruct (b64_state_data_prefix (S k) n H) as [rest E].
  rewrite E, b64_state_data_S.
  rewrite <- app_assoc, nth_error_app2; rewrite b64_state_data_length; [|lia].
  now rewrite Nat.sub_diag.
Qed.

(** The point of month [k + 1] is the one pushed by turn [k + 1]. *)
Lemma b64_point_of_month (k : nat) :
  (k < Z.to_nat (B64.timeframe inp))%nat ->
  B64.point_of_month (B64.generateDynamicMonthlyData random inp) (S k)
  = Some (pushed k).
Proof.
  intro H. unfold B64.point_of_month, B64.generateDynamicMonthlyData.
  replace (Z.of_nat (S k) - 1)%Z with (Z.of_nat k) by lia.
  now rewrite elem_at_nat, b64_state_data_nth.
Qed.

(** *** What a turn stores *)

Lemma b64_pushed_adjustedRevenue (k : nat) :
  B64.mul (B64.currentRevenue (state (S k)))
          (B64.getSeasonalMultiplier (B64.st_month (state k)))
  = B64.adjustedRevenue_at random (S k) inp.
Proof.
  unfold B64.adjustedRevenue_at. rewrite b64_state_month.
  now replace (Z.of_nat k + 1)%Z with (Z.of_nat (S k)) by lia.
Qed.

Lemma b64_pushed_profit (k : nat) :
  B64.profit (pushed k) = B64.round (B64.profit_at random (S k) inp).
Proof.
  unfold B64.pushed_point. cbn [B64.profit].
  now rewrite b64_pushed_adjustedRevenue.
Qed.

Lemma b64_pushed_cost (k : nat) :
  B64.cost (pushed k)
  = B64.round (B64.mul (B64.monthly_operating_cost inp)
                 (B64.add (B64.of_Z 1) (B64.variance (random (2 * k)%nat)))).
Proof.
  unfold B64.pushed_point. cbn [B64.cost].
  now rewrite b64_state_after_S, b64_loop_body_cost, b64_cost_draw.
Qed.

Lemma b64_next_cumulativeProfit_later (d : list B64.MonthlyDataPoint)
  (pp : B64.MonthlyDataPoint) (pr ii : B64.f64) :
  B64.next_cumulativeProfit (d ++ [pp]) pr ii = B64.add (B64.cumulativeProfit pp) pr.
Proof.
  unfold B64.next_cumulativeProfit. rewrite elem_at_last.
  destruct (Z.ltb_spec 0 (length_of (d ++ [pp]))) as [_|H]; [reflexivity|].
  unfold length_of in H. rewrite length_app in H. cbn [List.length] in H. lia.
Qed.

Lemma b64_pushed_cumulative_first :
  B64.cumulativeProfit (pushed 0)
  = B64.round (B64.sub (B64.profit_at random 1 inp) (B64.initial_investment inp)).
Proof. reflexivity. Qed.

Lemma b64_pushed_cumulative_later (k : nat) :
  B64.cumulativeProfit (pushed (S k))
  = B64.round (B64.add (B64.cumulativeProfit (pushed k))
                       (B64.profit_at random (S (S k)) inp)).
Proof.
  unfold B64.pushed_point at 1. cbn [B64.cumulativeProfit].
  now rewrite b64_pushed_adjustedRevenue, b64_state_data_S,
    b64_next_cumulativeProfit_later.
Qed.

Lemma b64_pushed_growth_first :
  B64.revenueGrowth (pushed 0)
  = B64.round
      (B64.mul
         (B64.div (B64.sub (B64.adjustedRevenue_at random 1 inp)
                           (B64.adjustedRevenue_at random 1 inp))
                  (B64.adjustedRevenue_at random 1 inp))
         (B64.of_Z 100)).
Proof. reflexivity. Qed.

Lemma b64_pushed_growth_later (k : nat) :
  B64.revenueGrowth (pushed (S k))
  = let adjustedRevenue := B64.adjustedRevenue_at random (S (S k)) inp in
    let prev := B64.or_else (B64.revenue (pushed k)) adjustedRevenue in
    B64.round (B64.mul (B64.div (B64.sub adjustedRevenue prev) prev) (B64.of_Z 100)).
Proof.
  cbv zeta. unfold B64.pushed_point at 1. cbn [B64.revenueGrowth].
  rewrite b64_pushed_adjustedRevenue, b64_state_data_S, b64_state_month.
  set (adj := B64.adjustedRevenue_at random (S (S k)) inp).
  assert (P : B64.previous_revenue (B64.monthlyData (state k) ++ [pushed k])
                (Z.of_nat (S k) + 1) adj
              = B64.or_else (B64.revenue (pushed k)) adj).
  { unfold B64.previous_revenue.
    replace (Z.of_nat (S k) + 1 - 2)%Z
      with (length_of (B64.monthlyData (state k) ++ [pushed k]) - 1)%Z.
    2:{ unfold length_of. rewrite length_app, b64_state_data_length.
        cbn [List.length]. lia. }
    now rewrite elem_at_last. }
  now rewrite P.
Qed.

End B64Facts.

(** A finite nonzero number compared with itself grows by 0%:
    [x - x] is [+0], and so are the quotient and the product (up to the
    sign of the zero). *)
Lemma b64_self_growth_zero (x : B64.f64) :
  B64.finite_nonzero x ->
  B64.strict_eq
    (B64.round (B64.mul (B64.div (B64.sub x x) x) (B64.of_Z 100)))
    (B64.of_Z 0) = true.
Proof.
  destruct x as [| | |s m e]; try contradiction. intros _.
  assert (Z0 : B64.sub (S754_finite s m e) (S754_finite s m e) = S754_zero false).
  { unfold B64.sub. cbn [SFsub]. now rewrite Z.sub_diag. }
  rewrite Z0.
  let v := eval vm_compute in (B64.of_Z 100) in change (B64.of_Z 100) with v.
  reflexivity.
Qed.

(** Binary64 products are rounded: 100 * 1.15 is the double just below
    115, which [Math.round] still takes to 115, while 10 * 1.05 is exactly
    10.5 and rounds to 11. *)
Example b64_rounded_products :
  B64.strict_eq (B64.mul (B64.of_Z 100) (B64.lit 1.15)) (B64.of_Z 115) = false /\
  SFltb (B64.mul (B64.of_Z 100) (B64.lit 1.15)) (B64.of_Z 115) = true /\
  B64.round (B64.mul (B64.of_Z 100) (B64.lit 1.15)) = B64.of_Z 115 /\
  B64.round (B64.mul (B64.of_Z 10) (B64.lit 1.05)) = B64.of_Z 11.
Proof. repeat split; vm_compute; reflexivity. Qed.

(** Compared with itself, zero, an infinity or NaN gives NaN. *)
Lemma b64_self_growth_nan (x : B64.f64) :
  ~ B64.finite_nonzero x ->
  B64.round (B64.mul (B64.div (B64.sub x x) x) (B64.of_Z 100)) = S754_nan.
Proof.
  destruct x as [[|]|[|]| |s m e]; intro H; try reflexivity.
  exfalso. apply H. exact I.
Qed.

(** ** Cumulative profit *)

(** C3 as stated fails: for the valid input (investment 100000, expected
    monthly revenue 100, cost 1, twelve months, "Produksi (B2B)") and no
    variance, the code stores the cumulative profit -99040 for month 11,
    and for month 12 the profit 102 and the cumulative profit -98937,
    which is not -99040 + 102: the unrounded profit of month 12, just
    below 102.5, is added to -99040 and the sum is rounded to -98937. *)
Lemma b64_cumulativeProfit_drift :
  let data := B64.generateDynamicMonthlyData B64.mid_draws B64.drift_inputs in
  exists p11 p12,
    B64.point_of_month data 11 = Some p11 /\
    B64.point_of_month data 12 = Some p12 /\
    B64.cumulativeProfit p11 = B64.of_Z (-99040) /\
    B64.profit p12 = B64.of_Z 102 /\
    B64.cumulativeProfit p12 = B64.of_Z (-98937) /\
    B64.strict_eq (B64.cumulativeProfit p12)
      (B64.add (B64.cumulativeProfit p11) (B64.profit p12)) = false.
Proof.
  cbv zeta. eexists. eexists.
  split; [vm_compute; reflexivity|]. split; [vm_compute; reflexivity|].
  repeat split; vm_compute; reflexivity.
Qed.

(** C3, as the code has it: for every input and every sequence of draws,
    the stored profit of a month is Math.round of the month's unrounded
    profit (adjustedRevenue - currentCost); the stored cumulative profit
    of month 1 is Math.round(profit_1 - initialInvestment) and that of
    every month k > 1 is Math.round(cumulativeProfit[k-1] + profit_k),
    where cumulativeProfit[k-1] is the stored value of the month before
    and profit_k the unrounded profit of month k. *)
Theorem b64_cumulativeProfit_rounded (random : nat -> B64.f64)
  (inp : B64.FinancialInputs) :
  let data := B64.generateDynamicMonthlyData random inp in
  ((1 <= B64.timeframe inp)%Z ->
     exists p1,
       B64.point_of_month data 1 = Some p1 /\
       B64.profit p1 = B64.round (B64.profit_at random 1 inp) /\
       B64.cumulativeProfit p1
       = B64.round (B64.sub (B64.profit_at random 1 inp)
                            (B64.initial_investment inp))) /\
  (forall k : nat, (1 < k <= Z.to_nat (B64.timeframe inp))%nat ->
     exists prev p,
       B64.point_of_month data (k - 1) = Some prev /\
       B64.point_of_month data k = Some p /\
       B64.profit p = B64.round (B64.profit_at random k inp) /\
       B64.cumulativeProfit p
       = B64.round (B64.add (B64.cumulativeProfit prev)
                            (B64.profit_at random k inp))).
Proof.
  cbv zeta. split.
  - intro H. eexists. split; [apply b64_point_of_month; lia|].
    split; [apply b64_pushed_profit|apply b64_pushed_cumulative_first].
  - intros k Hk. destruct k as [|[|k]]; try lia.
    eexists. eexists.
    split; [cbn [Nat.sub]; apply b64_point_of_month; lia|].
    split; [apply b64_point_of_month; lia|].
    split; [apply b64_pushed_profit|apply b64_pushed_cumulative_later].
Qed.

Lemma b64_cumulativeProfit_rounded_witness :
  exists prev p,
    B64.point_of_month
      (B64.generateDynamicMonthlyData B64.mid_draws B64.drift_inputs) (12 - 1)
    = Some prev /\
    B64.point_of_month
      (B64.generateDynamicMonthlyData B64.mid_draws B64.drift_inputs) 12
    = Some p /\
    B64.profit p = B64.round (B64.profit_at B64.mid_draws 12 B64.drift_inputs) /\
    B64.cumulativeProfit p
    = B64.round (B64.add (B64.cumulativeProfit prev)
                         (B64.profit_at B64.mid_draws 12 B64.drift_inputs)).
Proof.
  apply (proj2 (b64_cumulativeProfit_rounded B64.mid_draws B64.drift_inputs) 12%nat).
  cbn. lia.
Defined.

(** ** Revenue growth *)

(** C4 as stated fails: with an expected monthly revenue of 2 and no
    variance, the adjusted revenue is about 1.08 in month 1 (stored as 1)
    and about 1.2312 in month 2; the growth from the unrounded 1.08
    rounds to 14, and the code stores 23 for month 2. *)
Lemma b64_revenueGrowth_not_from_adjusted_revenue :
  let data := B64.generateDynamicMonthlyData B64.mid_draws B64.small_inputs in
  let adj1 := B64.adjustedRevenue_at B64.mid_draws 1 B64.small_inputs in
  let adj2 := B64.adjustedRevenue_at B64.mid_draws 2 B64.small_inputs in
  exists p,
    B64.point_of_month data 2 = Some p /\
    B64.revenueGrowth p = B64.of_Z 23 /\
    B64.round (B64.mul (B64.div (B64.sub adj2 adj1) adj1) (B64.of_Z 100))
    = B64.of_Z 14 /\
    B64.strict_eq (B64.revenueGrowth p)
      (B64.round (B64.mul (B64.div (B64.sub adj2 adj1) adj1) (B64.of_Z 100)))
    = false.
Proof.
  cbv zeta. eexists. split; [vm_compute; reflexivity|].
  repeat split; vm_compute; reflexivity.
Qed.

(** C4, as the code has it: for every input and every sequence of draws,
    the stored revenue growth of month 1 is 0 whenever the adjusted
    revenue of month 1 is a finite nonzero number (it is compared with
    itself; it is NaN otherwise), and that of every month m > 1 is
    round(((adjustedRevenue_m - prev) / prev) * 100), where prev is the
    stored, rounded revenue of the month before, or adjustedRevenue_m
    itself when that stored revenue is falsy (0 or NaN). *)
Theorem b64_revenueGrowth_from_stored_revenue (random : nat -> B64.f64)
  (inp : B64.FinancialInputs) :
  let data := B64.generateDynamicMonthlyData random inp in
  ((1 <= B64.timeframe inp)%Z ->
     exists p1,
       B64.point_of_month data 1 = Some p1 /\
       (B64.finite_nonzero (B64.adjustedRevenue_at random 1 inp) ->
        B64.strict_eq (B64.revenueGrowth p1) (B64.of_Z 0) = true) /\
       (~ B64.finite_nonzero (B64.adjustedRevenue_at random 1 inp) ->
        B64.revenueGrowth p1 = S754_nan)) /\
  (forall m : nat, (1 < m <= Z.to_nat (B64.timeframe inp))%nat ->
     exists prev p,
       B64.point_of_month data (m - 1) = Some prev /\
       B64.point_of_month data m = Some p /\
       B64.revenueGrowth p
       = let adjustedRevenue := B64.adjustedRevenue_at random m inp in
         let prevRevenue := B64.or_else (B64.revenue prev) adjustedRevenue in
         B64.round
           (B64.mul (B64.div (B64.sub adjustedRevenue prevRevenue) prevRevenue)
                    (B64.of_Z 100))).
Proof.
  cbv zeta. split.
  - intro H. eexists. split; [apply b64_point_of_month; lia|].
    split; intro F; rewrite b64_pushed_growth_first;
      [now apply b64_self_growth_zero|now apply b64_self_growth_nan].
  - intros m Hm. destruct m as [|[|k]]; try lia.
    eexists. eexists.
    split; [cbn [Nat.sub]; apply b64_point_of_month; lia|].
    split; [apply b64_point_of_month; lia|].
    apply b64_pushed_growth_later.
Qed.

Lemma b64_revenueGrowth_from_stored_revenue_witness :
  exists p1,
    B64.point_of_month
      (B64.generateDynamicMonthlyData B64.mid_draws B64.small_inputs) 1 = Some p1 /\
    B64.strict_eq (B64.revenueGrowth p1) (B64.of_Z 0) = true.
Proof.
  destruct (proj1 (b64_revenueGrowth_from_stored_revenue B64.mid_draws B64.small_inputs))
    as (p1 & P & G & _).
  - cbn. lia.
  - exists p1. split; [exact P|]. apply G. vm_compute. exact I.
Defined.

(** ** Cost *)

(** X4: the cost is not compounded: for every input, every business
    model and every sequence of draws, the stored cost of month [k] is
    Math.round(monthly_operating_cost * (1 + (r * 0.1 - 0.05))) for one
    draw [r] of [Math.random()], the draw number [2 (k - 1)]. *)
Theorem b64_stored_cost (random : nat -> B64.f64) (inp : B64.FinancialInputs)
  (k : nat) :
  (1 <= k <= Z.to_nat (B64.timeframe inp))%nat ->
  exists p,
    B64.point_of_month (B64.generateDynamicMonthlyData random inp) k = Some p /\
    B64.cost p
    = B64.round
        (B64.mul (B64.monthly_operating_cost inp)
           (B64.add (B64.of_Z 1)
              (B64.sub (B64.mul (random (2 * (k - 1))%nat) (B64.lit 0.1))
                       (B64.lit 0.05)))).
Proof.
  intro H. destruct k as [|k]; [lia|].
  eexists. split; [apply b64_point_of_month; lia|].
  cbn [Nat.sub]. rewrite Nat.sub_0_r. apply b64_pushed_cost.
Qed.

Lemma b64_stored_cost_witness :
  exists p,
    B64.point_of_month
      (B64.generateDynamicMonthlyData B64.mid_draws B64.drift_inputs) 3 = Some p /\
    B64.cost p
    = B64.round
        (B64.mul (B64.of_Z 1)
           (B64.add (B64.of_Z 1)
              (B64.sub (B64.mul (B64.lit 0.5) (B64.lit 0.1)) (B64.lit 0.05)))).
Proof.
  apply (b64_stored_cost B64.mid_draws B64.drift_inputs 3). cbn. lia.
Defined.

(** ** A label that resolves to no row *)

(** C9 at a failing input: the business model "toString" names a member
    of [Object.prototype]; the lookup returns that member, its
    [monthlyGrowth] is [undefined], and [currentRevenue] is NaN from the
    turn for month 2 on, so [currentRevenue] of month 1 [<=]
    [currentRevenue] of month 2 is false, in exact and in binary64
    arithmetic alike. *)
Theorem currentRevenue_NaN_at_inherited_label :
  getGrowthFactors (business_model inherited_inputs) = Inherited "toString" /\
  currentRevenue (state_after mid_draws 2 inherited_inputs) = NaN /\
  le (currentRevenue (state_after mid_draws 1 inherited_inputs))
     (currentRevenue (state_after mid_draws 2 inherited_inputs)) = false /\
  B64.getGrowthFactors (B64.business_model B64.inherited_inputs)
  = B64.Inherited "toString" /\
  B64.currentRevenue (B64.state_after B64.mid_draws 2 B64.inherited_inputs)
  = S754_nan /\
  B64.le (B64.currentRevenue (B64.state_after B64.mid_draws 1 B64.inherited_inputs))
         (B64.currentRevenue (B64.state_after B64.mid_draws 2 B64.inherited_inputs))
  = false.
Proof. repeat split; vm_compute; reflexivity. Qed.
